(** * RenderCAD AI client: request/error normalisation and image encoding

    A shallow embedding of [src/index.js] (class [RenderCADClient]) and
    [src/errors.js] (the error taxonomy), followed by the properties of the
    request layer and of the image encoder.

    A JavaScript string is a sequence of UTF-16 code units and may hold a
    surrogate that has no partner.  It is kept as the Rocq string of its
    generalised UTF-8 bytes: well-formed text as its UTF-8, and a lone
    surrogate as the three bytes ED, A0..BF, 80..BF that UTF-8 itself never
    produces.  Every test the client performs on strings ([startsWith],
    [includes('/')], emptiness) looks at ASCII bytes only, and every
    concatenation it performs has an ASCII byte at the seam. *)

From Stdlib Require Import String Ascii List Bool NArith DecimalString.
From Stdlib Require Import Strings.Byte.
Import ListNotations.
Local Open Scope string_scope.
Set Warnings "-register-all".

(** ** JavaScript values that reach the client *)

(** A value produced by [JSON.parse].  The client observes a number only
    through its truthiness and through its conversion to text, so a number
    is kept as exactly those two observations. *)
Inductive json : Type :=
| JNull
| JBool (b : bool)
| JNum (is_zero : bool) (text : string)
| JStr (s : string)
| JArr (items : list json)
| JObj (fields : list (string * json)).

(** The result of a property read: [None] is JavaScript's [undefined]. *)
Definition value := option json.

Fixpoint lookup (key : string) (fields : list (string * json)) : value :=
  match fields with
  | [] => None
  | (k, v) :: rest => if String.eqb k key then Some v else lookup key rest
  end.

Definition has_key (key : string) (fields : list (string * json)) : bool :=
  match lookup key fields with Some _ => true | None => false end.

(** ToBoolean. *)
Definition truthy (v : value) : bool :=
  match v with
  | None => false
  | Some JNull => false
  | Some (JBool b) => b
  | Some (JNum is_zero _) => negb is_zero
  | Some (JStr s) => negb (String.eqb s "")
  | Some (JArr _) => true
  | Some (JObj _) => true
  end.

(** [a || b].  A chain [a || b || c] is written [js_or a (js_or b c)]; it
    yields the same value as the left-nested reading. *)
Definition js_or (a b : value) : value := if truthy a then a else b.

(** [v === false]. *)
Definition is_false (v : value) : bool :=
  match v with
  | Some (JBool false) => true
  | _ => false
  end.

(** ToString on a parsed value; [None] is the [TypeError] raised when an
    object cannot be converted to a primitive.  A parsed object owns only
    data properties, so one that owns a [toString] key shadows
    [Object.prototype.toString] with something that cannot be called, and
    [Object.prototype.valueOf] hands back the object itself.  Arrays go
    through [Array.prototype.join], which prints [null] as the empty text. *)
Fixpoint ToString (v : json) : option string :=
  match v with
  | JNull => Some "null"
  | JBool b => Some (if b then "true" else "false")
  | JNum _ text => Some text
  | JStr s => Some s
  | JArr items =>
      (fix join (l : list json) : option string :=
         match l with
         | [] => Some ""
         | x :: rest =>
             let elem := match x with JNull => Some "" | _ => ToString x end in
             match rest with
             | [] => elem
             | _ :: _ =>
                 match elem, join rest with
                 | Some a, Some b => Some (a ++ "," ++ b)
                 | _, _ => None
                 end
             end
         end) items
  | JObj fields =>
      if has_key "toString" fields then None else Some "[object Object]"
  end.

(** The decimal text of a non-negative integer, as in a template literal. *)
Definition decimal (n : N) : string := NilEmpty.string_of_uint (N.to_uint n).

(** ** Exceptions and effects *)

(** The names of the classes of [errors.js]. *)
Inductive ErrorClass : Type :=
| RenderCADErrorClass
| BadRequestErrorClass
| UnauthorizedErrorClass
| NotFoundErrorClass
| RateLimitErrorClass
| ServerErrorClass.

(** An instance of [RenderCADError] or of one of its subclasses.  In
    [statusCode] and [response], [None] stands for [null] and [undefined]
    alike. *)
Record RenderCADError : Type := mkRenderCADError {
  class : ErrorClass;
  message : string;
  statusCode : option N;
  response : value
}.

(** The [name] property set by each constructor. *)
Definition name (e : RenderCADError) : string :=
  match class e with
  | RenderCADErrorClass => "RenderCADError"
  | BadRequestErrorClass => "BadRequestError"
  | UnauthorizedErrorClass => "UnauthorizedError"
  | NotFoundErrorClass => "NotFoundError"
  | RateLimitErrorClass => "RateLimitError"
  | ServerErrorClass => "ServerError"
  end.

(** A thrown value: an instance of the taxonomy ([error instanceof
    RenderCADError] holds), or any other error object, of which only the
    [message] is ever read. *)
Inductive exn : Type :=
| Typed (e : RenderCADError)
| Native (msg : string).

Definition instanceof_RenderCADError (x : exn) : bool :=
  match x with Typed _ => true | Native _ => false end.

(** [error.message]. *)
Definition message_of (x : exn) : string :=
  match x with Typed e => message e | Native msg => msg end.

Inductive completion (A : Type) : Type :=
| Return (a : A)
| Throw (x : exn).
Arguments Return {A} a.
Arguments Throw {A} x.

(** Options handed to [fetch]. *)
Record RequestInit : Type := mkRequestInit {
  method : string;
  body : option string;
  headers : list (string * string)
}.

(** What the program does to the outside world, in order. *)
Inductive event : Type :=
| EvReadFile (path : string)
| EvFetch (url : string) (config : RequestInit).

(** An asynchronous computation, run to completion: it extends the log of
    events and either returns or throws. *)
Definition M (A : Type) : Type := list event -> completion A * list event.

Definition ret {A} (a : A) : M A := fun log => (Return a, log).
Definition throw {A} (x : exn) : M A := fun log => (Throw x, log).
Definition bind {A B} (m : M A) (k : A -> M B) : M B :=
  fun log =>
    match m log with
    | (Return a, log') => k a log'
    | (Throw x, log') => (Throw x, log')
    end.
Definition try_catch {A} (m : M A) (handler : exn -> M A) : M A :=
  fun log =>
    match m log with
    | (Return a, log') => (Return a, log')
    | (Throw x, log') => handler x log'
    end.
Definition emit (ev : event) : M unit := fun log => (Return tt, (log ++ [ev])%list).

Notation "x <- m ;; k" := (bind m (fun x => k))
  (at level 61, m at next level, right associativity).
Notation "m ;;; k" := (bind m (fun _ => k))
  (at level 61, right associativity).

(** ** errors.js *)

(** [new Error(message)]: the message is converted with ToString, and an
    [undefined] message leaves the inherited empty text.  A failed
    conversion is a [TypeError], worded here as Node words it. *)
Definition Error_message (msg : value) : M string :=
  match msg with
  | None => ret ""
  | Some v =>
      match ToString v with
      | Some s => ret s
      | None => throw (Native "Cannot convert object to primitive value")
      end
  end.

Definition new_RenderCADError (cls : ErrorClass) (msg : value)
    (status : option N) (resp : value) : M RenderCADError :=
  text <- Error_message msg ;;
  ret (mkRenderCADError cls text status resp).

Definition new_BadRequestError (msg resp : value) : M RenderCADError :=
  new_RenderCADError BadRequestErrorClass
    (js_or msg (Some (JStr "Invalid request"))) (Some 400%N) resp.

Definition new_UnauthorizedError (msg resp : value) : M RenderCADError :=
  new_RenderCADError UnauthorizedErrorClass
    (js_or msg (Some (JStr "Invalid API token"))) (Some 401%N) resp.

Definition new_NotFoundError (msg resp : value) : M RenderCADError :=
  new_RenderCADError NotFoundErrorClass
    (js_or msg (Some (JStr "Resource not found"))) (Some 404%N) resp.

Definition new_RateLimitError (msg resp : value) : M RenderCADError :=
  new_RenderCADError RateLimitErrorClass
    (js_or msg (Some (JStr "Monthly limit exceeded"))) (Some 429%N) resp.

Definition new_ServerError (msg resp : value) : M RenderCADError :=
  new_RenderCADError ServerErrorClass
    (js_or msg (Some (JStr "Server error"))) (Some 500%N) resp.

(** [throw new C(...)]. *)
Definition throw_new {A} (e : M RenderCADError) : M A :=
  err <- e ;; throw (Typed err).

(** ** The platform under the client *)

(** A resolved [fetch]: the status line and what [response.json()] makes of
    the body, [None] when that promise rejects (the body is not JSON). *)
Record Response : Type := mkResponse {
  status : N;
  json_body : option json
}.

(** [response.ok]. *)
Definition ok (r : Response) : bool :=
  ((200 <=? status r) && (status r <=? 299))%N.

(** The capabilities the module takes from its runtime.  [fetch] resolves
    to a response or rejects with an error of the given message;
    [fs.readFile] likewise; [path.extname] depends on the host system (its
    result is empty or starts with a dot). *)
Record Platform : Type := mkPlatform {
  fetch : string -> RequestInit -> Response + string;
  readFile : string -> list byte + string;
  extname : string -> string
}.

(** ** Text helpers of the runtime *)

Definition in_range (lo hi : N) (c : ascii) : bool :=
  ((lo <=? N_of_ascii c) && (N_of_ascii c <=? hi))%N.

Definition is_alnum (c : ascii) : bool :=
  in_range 48 57 c || in_range 65 90 c || in_range 97 122 c.

Fixpoint includes (c : ascii) (s : string) : bool :=
  match s with
  | EmptyString => false
  | String d rest => Ascii.eqb d c || includes c rest
  end.

Definition hex_digit (upper : bool) (n : N) : ascii :=
  if (n <? 10)%N then ascii_of_N (48 + n)
  else ascii_of_N ((if upper then 55 else 87) + n).

Definition hex_byte (upper : bool) (c : ascii) : string :=
  String (hex_digit upper (N_of_ascii c / 16))
    (String (hex_digit upper (N_of_ascii c mod 16)) EmptyString).

Fixpoint map_chars (f : ascii -> string) (s : string) : string :=
  match s with
  | EmptyString => EmptyString
  | String c rest => f c ++ map_chars f rest
  end.

Definition single (c : ascii) : string := String c EmptyString.

(** The first two bytes of a lone surrogate. *)
Definition is_surrogate_lead (c d : ascii) : bool :=
  (N_of_ascii c =? 237)%N && in_range 160 191 d.

Fixpoint has_lone_surrogate (s : string) : bool :=
  match s with
  | EmptyString => false
  | String c rest =>
      match rest with
      | String d _ => is_surrogate_lead c d
      | EmptyString => false
      end || has_lone_surrogate rest
  end.

(** The code unit of a lone surrogate, from its second and third byte. *)
Definition surrogate_unit (d e : ascii) : N :=
  (53248 + (N_of_ascii d - 128) * 64 + (N_of_ascii e - 128))%N.

(** The escaping of [encodeURIComponent]: every byte of the UTF-8 form but
    the unreserved marks becomes [%XX]. *)
Definition uri_escape (s : string) : string :=
  map_chars (fun c =>
    if is_alnum c || includes c "-_.!~*'()" then single c
    else "%" ++ hex_byte true c) s.

(** [encodeURIComponent(s)]: a string that holds a lone surrogate has no
    UTF-8 form, and the call throws a [URIError], worded here as Node words
    it. *)
Definition encodeURIComponent (s : string) : M string :=
  if has_lone_surrogate s then throw (Native "URI malformed")
  else ret (uri_escape s).

(** The serialiser behind [URLSearchParams.prototype.toString].  A value is
    taken as a scalar-value string first, so a lone surrogate is replaced
    by U+FFFD. *)
Definition form_urlencode_char (c : ascii) : string :=
  if Ascii.eqb c " " then "+"
  else if is_alnum c || includes c "*-._" then single c
  else "%" ++ hex_byte true c.

Fixpoint form_urlencode (s : string) : string :=
  match s with
  | EmptyString => EmptyString
  | String c rest =>
      match rest with
      | String d (String _ rest') =>
          if is_surrogate_lead c d
          then "%EF%BF%BD" ++ form_urlencode rest'
          else form_urlencode_char c ++ form_urlencode rest
      | _ => form_urlencode_char c ++ form_urlencode rest
      end
  end.

Fixpoint URLSearchParams_toString (params : list (string * string)) : string :=
  match params with
  | [] => ""
  | (k, v) :: rest =>
      form_urlencode k ++ "=" ++ form_urlencode v ++
      match rest with
      | [] => ""
      | _ :: _ => "&" ++ URLSearchParams_toString rest
      end
  end.

Definition dquote : ascii := ascii_of_N 34.
Definition backslash : ascii := ascii_of_N 92.

(** The quoting [JSON.stringify] applies to a string; a lone surrogate is
    written as its [\u] escape. *)
Definition JSON_escape_char (c : ascii) : string :=
  let n := N_of_ascii c in
  if (n =? 8)%N then "\b"
  else if (n =? 9)%N then "\t"
  else if (n =? 10)%N then "\n"
  else if (n =? 12)%N then "\f"
  else if (n =? 13)%N then "\r"
  else if (n =? 34)%N then String backslash (single dquote)
  else if (n =? 92)%N then String backslash (single backslash)
  else if (n <? 32)%N then "\u00" ++ hex_byte false c
  else single c.

Definition hex_unit (n : N) : string :=
  String (hex_digit false (n / 4096))
    (String (hex_digit false ((n / 256) mod 16))
       (String (hex_digit false ((n / 16) mod 16))
          (String (hex_digit false (n mod 16)) EmptyString))).

Fixpoint JSON_escape (s : string) : string :=
  match s with
  | EmptyString => EmptyString
  | String c rest =>
      match rest with
      | String d (String e rest') =>
          if is_surrogate_lead c d
          then "\u" ++ hex_unit (surrogate_unit d e) ++ JSON_escape rest'
          else JSON_escape_char c ++ JSON_escape rest
      | _ => JSON_escape_char c ++ JSON_escape rest
      end
  end.

Definition JSON_quote (s : string) : string :=
  single dquote ++ JSON_escape s ++ single dquote.

Definition toLowerCase (s : string) : string :=
  map_chars (fun c =>
    if in_range 65 90 c then single (ascii_of_N (N_of_ascii c + 32))
    else single c) s.

(** [buffer.toString('base64')]. *)
Definition base64_alphabet : string :=
  "ABCDEFGHIJKLMNOPQRSTUVWXYZabcdefghijklmnopqrstuvwxyz0123456789+/".

Definition base64_digit (n : N) : ascii :=
  match String.get (N.to_nat n) base64_alphabet with
  | Some c => c
  | None => "="%char
  end.

Fixpoint base64 (buffer : list byte) : string :=
  match buffer with
  | [] => ""
  | [a] =>
      let n := (Byte.to_N a * 65536)%N in
      String (base64_digit (n / 262144))
        (String (base64_digit ((n / 4096) mod 64)) "==")
  | [a; b] =>
      let n := (Byte.to_N a * 65536 + Byte.to_N b * 256)%N in
      String (base64_digit (n / 262144))
        (String (base64_digit ((n / 4096) mod 64))
           (String (base64_digit ((n / 64) mod 64)) "="))
  | a :: b :: c :: rest =>
      let n := (Byte.to_N a * 65536 + Byte.to_N b * 256 + Byte.to_N c)%N in
      String (base64_digit (n / 262144))
        (String (base64_digit ((n / 4096) mod 64))
           (String (base64_digit ((n / 64) mod 64))
              (String (base64_digit (n mod 64)) (base64 rest))))
  end.

(** Truthiness of a value that is a string, [null] or [undefined]. *)
Definition truthy_string (s : option string) : bool :=
  match s with
  | Some t => negb (String.eqb t "")
  | None => false
  end.

(** Object property assignment on an ordered property list. *)
Fixpoint assign (key val : string) (o : list (string * string))
    : list (string * string) :=
  match o with
  | [] => [(key, val)]
  | (k, v) :: rest =>
      if String.eqb k key then (k, val) :: rest
      else (k, v) :: assign key val rest
  end.

(** [{...a, ...b}]. *)
Definition spread (a b : list (string * string)) : list (string * string) :=
  fold_left (fun o kv => assign (fst kv) (snd kv) o) b a.

(** [delete o[key]]. *)
Definition delete (key : string) (o : list (string * string))
    : list (string * string) :=
  filter (fun kv => negb (String.eqb (fst kv) key)) o.

(** ** index.js: class RenderCADClient *)

Record RenderCADClient : Type := mkRenderCADClient {
  apiToken : option string;
  baseUrl : string
}.

(** [constructor(apiToken = null, options = {})]; the second argument is
    [options.baseUrl]. *)
Definition constructor (token : option string) (options_baseUrl : option string)
    : RenderCADClient :=
  {| apiToken := token;
     baseUrl := match options_baseUrl with
                | Some u => if String.eqb u "" then "https://rendercad.ai" else u
                | None => "https://rendercad.ai"
                end |}.

Definition setApiToken (this : RenderCADClient) (token : option string)
    : RenderCADClient :=
  {| apiToken := token; baseUrl := baseUrl this |}.

Definition _getHeaders (this : RenderCADClient) : list (string * string) :=
  let headers :=
    [ ("Content-Type", "application/json");
      ("Accept", "*/*");
      ("User-Agent", "rendercad-ai-node-client/1.0.0") ] in
  match apiToken this with
  | Some t =>
      if truthy_string (Some t)
      then assign "Authorization" ("Bearer " ++ t) headers
      else headers
  | None => headers
  end.

(** The properties of the response body that [_request] reads. *)
Inductive body_property : Type :=
| success
| token_valid
| authenticated
| message_
| error_.

Definition property_name (p : body_property) : string :=
  match p with
  | success => "success"
  | token_valid => "token_valid"
  | authenticated => "authenticated"
  | message_ => "message"
  | error_ => "error"
  end.

(** The own property [p] of a parsed value, [undefined] when there is none;
    none of the five names is defined by a prototype, so this is also what
    a read gives on a primitive or an array. *)
Definition own (data : json) (p : body_property) : value :=
  match data with
  | JObj fields => lookup (property_name p) fields
  | _ => None
  end.

(** [data.p]: reading a property of [null] throws a [TypeError], worded
    here as Node words it. *)
Definition get (data : json) (p : body_property) : M value :=
  match data with
  | JNull =>
      throw (Native ("Cannot read properties of null (reading '"
                     ++ property_name p ++ "')"))
  | _ => ret (own data p)
  end.

(** [await fetch(url, config)]. *)
Definition await_fetch (P : Platform) (url : string) (config : RequestInit)
    : M Response :=
  emit (EvFetch url config) ;;;
  match fetch P url config with
  | inl r => ret r
  | inr msg => throw (Native msg)
  end.

(** What [response.json().catch(() => ({}))] resolves to. *)
Definition parsed_body (r : Response) : json :=
  match json_body r with
  | Some v => v
  | None => JObj []
  end.

Definition await_json (r : Response) : M json := ret (parsed_body r).

Definition str (s : string) : value := Some (JStr s).

(** [_request(endpoint, options)]; an absent [options.headers] is the empty
    list. *)
Definition _request (P : Platform) (this : RenderCADClient)
    (endpoint : string) (options : RequestInit) : M json :=
  let url := baseUrl this ++ endpoint in
  let baseHeaders := _getHeaders this in
  let baseHeaders :=
    if String.eqb (method options) "GET" || negb (truthy_string (body options))
    then delete "Content-Type" baseHeaders
    else baseHeaders in
  let config :=
    {| method := method options;
       body := body options;
       headers := spread baseHeaders (headers options) |} in
  try_catch
    (resp <- await_fetch P url config ;;
     data <- await_json resp ;;
     data_success <- get data success ;;
     (if is_false data_success then
        data_token_valid <- get data token_valid ;;
        data_authenticated <- get data authenticated ;;
        (if is_false data_token_valid || is_false data_authenticated then
           data_message <- get data message_ ;;
           throw_new (new_UnauthorizedError
                        (js_or data_message (str "Invalid API token"))
                        (Some data))
         else ret tt) ;;;
        data_message <- get data message_ ;;
        data_error <- get data error_ ;;
        let errorMessage :=
          js_or data_message (js_or data_error (str "Request failed")) in
        throw_new (new_BadRequestError errorMessage (Some data))
      else ret tt) ;;;
     (if negb (ok resp) then
        data_message <- get data message_ ;;
        data_error <- get data error_ ;;
        let errorMessage :=
          js_or data_message
            (js_or data_error (str ("HTTP " ++ decimal (status resp)))) in
        if (status resp =? 400)%N then
          throw_new (new_BadRequestError errorMessage (Some data))
        else if (status resp =? 401)%N then
          throw_new (new_UnauthorizedError errorMessage (Some data))
        else if (status resp =? 404)%N then
          throw_new (new_NotFoundError errorMessage (Some data))
        else if (status resp =? 429)%N then
          throw_new (new_RateLimitError errorMessage (Some data))
        else if (status resp =? 500)%N then
          throw_new (new_ServerError errorMessage (Some data))
        else
          throw_new (new_RenderCADError RenderCADErrorClass errorMessage
                       (Some (status resp)) (Some data))
      else ret tt) ;;;
     ret data)
    (fun error =>
       if instanceof_RenderCADError error then throw error
       else
         throw_new (new_RenderCADError RenderCADErrorClass
                      (str ("Request failed: " ++ message_of error))
                      None None)).

(** The argument of [renderImage]: a string, a [Buffer], or a value of any
    other type. *)
Inductive Image : Type :=
| ImageString (s : string)
| ImageBuffer (buffer : list byte)
| ImageOther.

Definition mimeTypes : list (string * string) :=
  [ (".jpg", "image/jpeg");
    (".jpeg", "image/jpeg");
    (".png", "image/png");
    (".gif", "image/gif");
    (".webp", "image/webp") ].

Fixpoint table_get (key : string) (t : list (string * string)) : option string :=
  match t with
  | [] => None
  | (k, v) :: rest => if String.eqb k key then Some v else table_get key rest
  end.

(** [buffer[i] === b], out of range included. *)
Definition byte_is (buffer : list byte) (i : nat) (b : byte) : bool :=
  match nth_error buffer i with
  | Some x => Byte.eqb x b
  | None => false
  end.

Definition _encodeImage (P : Platform) (image : Image) : M string :=
  match image with
  | ImageString s =>
      if String.prefix "data:image/" s then ret s
      else if negb (includes "/" s) then ret ("data:image/jpeg;base64," ++ s)
      else
        let filePath := s in
        emit (EvReadFile filePath) ;;;
        match readFile P filePath with
        | inr msg => throw (Native msg)
        | inl buffer =>
            let ext := toLowerCase (extname P filePath) in
            let mimeType :=
              match table_get ext mimeTypes with
              | Some m => m
              | None => "image/jpeg"
              end in
            ret ("data:" ++ mimeType ++ ";base64," ++ base64 buffer)
        end
  | ImageBuffer buffer =>
      let mimeType :=
        if byte_is buffer 0 x89 && byte_is buffer 1 x50 then "image/png"
        else if byte_is buffer 0 x47 && byte_is buffer 1 x49 then "image/gif"
        else if byte_is buffer 0 x52 && byte_is buffer 1 x49
                && byte_is buffer 2 x46 && byte_is buffer 3 x46
        then "image/webp"
        else "image/jpeg" in
      ret ("data:" ++ mimeType ++ ";base64," ++ base64 buffer)
  | ImageOther =>
      throw_new (new_BadRequestError
        (str "Invalid image format. Expected Buffer, file path, or base64 string.")
        None)
  end.

Definition token_required : string :=
  "API token is required. Set it in constructor or use setApiToken().".

Definition renderImage (P : Platform) (this : RenderCADClient) (image : Image)
    : M json :=
  (if negb (truthy_string (apiToken this))
   then throw_new (new_UnauthorizedError (str token_required) None)
   else ret tt) ;;;
  imageData <- _encodeImage P image ;;
  _request P this "/backend/render.php?action=render"
    {| method := "POST";
       body := Some ("{" ++ JSON_quote "image" ++ ":" ++ JSON_quote imageData ++ "}");
       headers := [] |}.

Definition checkStatus (P : Platform) (this : RenderCADClient) (jobId : string)
    : M json :=
  (if negb (truthy_string (apiToken this))
   then throw_new (new_UnauthorizedError (str token_required) None)
   else ret tt) ;;;
  (if negb (truthy_string (Some jobId))
   then throw_new (new_BadRequestError (str "jobId is required") None)
   else ret tt) ;;;
  encoded <- encodeURIComponent jobId ;;
  _request P this
    ("/backend/render.php?action=status&job_id=" ++ encoded)
    {| method := "GET"; body := None; headers := [] |}.

Definition checkAccount (P : Platform) (this : RenderCADClient) : M json :=
  (if negb (truthy_string (apiToken this))
   then throw_new (new_UnauthorizedError (str token_required) None)
   else ret tt) ;;;
  _request P this "/backend/auth.php?action=check"
    {| method := "GET"; body := None; headers := [] |}.

(** The [options] argument of [requestDeviceCode]. *)
Record DeviceCodeOptions : Type := mkDeviceCodeOptions {
  app_name : option string;
  app_type : option string;
  app_version : option string
}.

Definition append_if (key : string) (v : option string)
    (params : list (string * string)) : list (string * string) :=
  match v with
  | Some s => if truthy_string (Some s) then (params ++ [(key, s)])%list else params
  | None => params
  end.

Definition requestDeviceCode (P : Platform) (this : RenderCADClient)
    (options : DeviceCodeOptions) : M json :=
  let params := [] in
  let params := append_if "app_name" (app_name options) params in
  let params := append_if "app_type" (app_type options) params in
  let params := append_if "app_version" (app_version options) params in
  let queryString := URLSearchParams_toString params in
  let endpoint :=
    "/backend/auth.php?action=request_device_code" ++
    (if truthy_string (Some queryString) then "&" ++ queryString else "") in
  _request P this endpoint {| method := "POST"; body := None; headers := [] |}.

Definition pollDeviceCode (P : Platform) (this : RenderCADClient) (code : string)
    : M json :=
  (if negb (truthy_string (Some code))
   then throw_new (new_BadRequestError (str "Device code is required") None)
   else ret tt) ;;;
  encoded <- encodeURIComponent code ;;
  _request P this
    ("/backend/auth.php?action=poll_device_code&code=" ++ encoded)
    {| method := "GET"; body := None; headers := [] |}.

(** The five public operations and a call of any of them on a fresh log. *)
Inductive operation : Type :=
| RenderImage (image : Image)
| CheckStatus (jobId : string)
| CheckAccount
| RequestDeviceCode (options : DeviceCodeOptions)
| PollDeviceCode (code : string).

Definition call (P : Platform) (this : RenderCADClient) (op : operation)
    : completion json * list event :=
  match op with
  | RenderImage image => renderImage P this image []
  | CheckStatus jobId => checkStatus P this jobId []
  | CheckAccount => checkAccount P this []
  | RequestDeviceCode options => requestDeviceCode P this options []
  | PollDeviceCode code => pollDeviceCode P this code []
  end.

(** What [_request] hands to [fetch]. *)
Definition request_url (this : RenderCADClient) (endpoint : string) : string :=
  baseUrl this ++ endpoint.

Definition request_config (this : RenderCADClient) (options : RequestInit)
    : RequestInit :=
  {| method := method options;
     body := body options;
     headers :=
       spread
         (if String.eqb (method options) "GET"
             || negb (truthy_string (body options))
          then delete "Content-Type" (_getHeaders this)
          else _getHeaders this)
         (headers options) |}.

(** The generic error [_request] wraps a foreign failure into. *)
Definition wrapped (error_message : string) : RenderCADError :=
  {| class := RenderCADErrorClass;
     message := "Request failed: " ++ error_message;
     statusCode := None;
     response := None |}.

(** The message expression of the status branch of [_request]. *)
Definition status_message (resp : Response) : value :=
  js_or (own (parsed_body resp) message_)
    (js_or (own (parsed_body resp) error_)
       (str ("HTTP " ++ decimal (status resp)))).

(** The message expressions of the [success === false] branch. *)
Definition credential_message (data : json) : value :=
  js_or (own data message_) (str "Invalid API token").

Definition failure_message (data : json) : value :=
  js_or (own data message_) (js_or (own data error_) (str "Request failed")).

(** [data.token_valid === false || data.authenticated === false]. *)
Definition credential_flag (data : json) : bool :=
  is_false (own data token_valid) || is_false (own data authenticated).

(** The class [_request] selects for a status outside 200..299. *)
Definition class_of_status (s : N) : ErrorClass :=
  if (s =? 400)%N then BadRequestErrorClass
  else if (s =? 401)%N then UnauthorizedErrorClass
  else if (s =? 404)%N then NotFoundErrorClass
  else if (s =? 429)%N then RateLimitErrorClass
  else if (s =? 500)%N then ServerErrorClass
  else RenderCADErrorClass.

(** ToString of a value that is not [undefined]. *)
Definition text_of (v : value) : option string :=
  match v with
  | Some j => ToString j
  | None => None
  end.

(** ** Vocabulary of the statements *)

(** The call ends by throwing an instance of class [cls]. *)
Definition raises (r : completion json * list event) (cls : ErrorClass) : Prop :=
  exists e, fst r = Throw (Typed e) /\ class e = cls.

(** The call ends with a parsed body or with an error of the taxonomy. *)
Definition success_or_typed (r : completion json * list event) : Prop :=
  (exists v, fst r = Return v) \/ (exists e, fst r = Throw (Typed e)).

(** The call returned the parsed body of a response in the 200..299 range
    to a request it sent. *)
Definition returns_response_body (P : Platform)
    (r : completion json * list event) : Prop :=
  exists url config resp,
    In (EvFetch url config) (snd r) /\
    fetch P url config = inl resp /\
    ok resp = true /\
    fst r = Return (parsed_body resp).

(** The call threw an instance of the taxonomy. *)
Definition throws_typed (r : completion json * list event) : Prop :=
  exists e, fst r = Throw (Typed e).

(** No [fetch] was issued. *)
Definition no_network_call (log : list event) : Prop :=
  forall url config, ~ In (EvFetch url config) log.

Definition starts_with (signature buffer : list byte) : Prop :=
  exists rest, buffer = (signature ++ rest)%list.

Definition contains (c : ascii) (s : string) : Prop :=
  exists a b, s = a ++ String c b.

(** ** Concrete runs *)

(** A runtime whose [fetch] settles every request the same way and whose
    file system holds no file. *)
Definition platform_answering (outcome : Response + string) : Platform :=
  {| fetch := fun _ _ => outcome;
     readFile := fun _ => inr "ENOENT: no such file or directory";
     extname := fun _ => ".jpg" |}.

Definition client_with_token : RenderCADClient :=
  constructor (Some "rc_token") None.

Definition client_without_token : RenderCADClient := constructor None None.

Definition GET : RequestInit := {| method := "GET"; body := None; headers := [] |}.

(** The one-unit string [\uD800], a high surrogate without partner. *)
Definition lone_surrogate : string :=
  String (ascii_of_N 237) (String (ascii_of_N 160) (String (ascii_of_N 128) "")).

(** [{"success": false}] *)
Definition body_failure : json := JObj [("success", JBool false)].

(** [{"success": false, "token_valid": false}] *)
Definition body_token_invalid : json :=
  JObj [("success", JBool false); ("token_valid", JBool false)].

(** [{"success": false, "token_valid": false, "message": {"toString": 1}}] *)
Definition body_message_object : json :=
  JObj [("success", JBool false); ("token_valid", JBool false);
        ("message", JObj [("toString", JNum false "1")])].

(** [{"message": "Too many renders"}] *)
Definition body_limit : json := JObj [("message", JStr "Too many renders")].

(** [{"message": {"toString": 1}}] *)
Definition body_odd_message : json :=
  JObj [("message", JObj [("toString", JNum false "1")])].

(** [{"message": "", "error": "Job not found"}] *)
Definition body_error_only : json :=
  JObj [("message", JStr ""); ("error", JStr "Job not found")].

(** What the token-requiring operations throw on a client without token. *)
Definition missing_token_error : RenderCADError :=
  {| class := UnauthorizedErrorClass;
     message := token_required;
     statusCode := Some 401%N;
     response := None |}.

(** ** Vocabulary of the further statements *)

Definition is_fetch (ev : event) : bool :=
  match ev with
  | EvFetch _ _ => true
  | EvReadFile _ => false
  end.

(** The requests of a log, in order. *)
Definition fetches (log : list event) : list event := filter is_fetch log.

(** The status code a specialization of [errors.js] fixes in its
    constructor; the base class takes its code as an argument. *)
Definition fixed_code (cls : ErrorClass) : option N :=
  match cls with
  | RenderCADErrorClass => None
  | BadRequestErrorClass => Some 400%N
  | UnauthorizedErrorClass => Some 401%N
  | NotFoundErrorClass => Some 404%N
  | RateLimitErrorClass => Some 429%N
  | ServerErrorClass => Some 500%N
  end.

(** The options [requestDeviceCode] and [renderImage] hand to [_request]. *)
Definition POST : RequestInit := {| method := "POST"; body := None; headers := [] |}.

Definition render_options (imageData : string) : RequestInit :=
  {| method := "POST";
     body := Some ("{" ++ JSON_quote "image" ++ ":" ++ JSON_quote imageData ++ "}");
     headers := [] |}.

(** A header of a request, by name. *)
Definition header (key : string) (config : RequestInit) : option string :=
  table_get key (headers config).

(** Every character of [s] satisfies [p]. *)
Fixpoint all_chars (p : ascii -> bool) (s : string) : bool :=
  match s with
  | EmptyString => true
  | String c rest => p c && all_chars p rest
  end.

(** The characters an escaped URI component is made of: letters, digits,
    the unreserved marks and the percent sign of an escape. *)
Definition component_char (c : ascii) : bool :=
  is_alnum c || includes c "-_.!~*'()%".

(** The part of the device-code URL that one option contributes. *)
Definition optional_parameter (key : string) (v : option string) : string :=
  match v with
  | Some s =>
      if String.eqb s "" then "" else "&" ++ key ++ "=" ++ form_urlencode s
  | None => ""
  end.

(** * Properties *)

(** ** Reading and converting *)

Lemma get_not_null (data : json) (p : body_property) (log : list event) :
  data <> JNull -> get data p log = (Return (own data p), log).
Proof.
  destruct data; intros H; try reflexivity. now elim H.
Qed.

Lemma own_success_not_null (data : json) (v : json) :
  own data success = Some v -> data <> JNull.
Proof.
  destruct data; simpl; congruence.
Qed.

Lemma Error_message_text (v : value) (text : string) (log : list event) :
  text_of v = Some text -> Error_message v log = (Return text, log).
Proof.
  destruct v as [j|]; simpl; [|discriminate].
  intros H. unfold Error_message. now rewrite H.
Qed.

Lemma Error_message_fail (j : json) (log : list event) :
  ToString j = None ->
  Error_message (Some j) log =
    (Throw (Native "Cannot convert object to primitive value"), log).
Proof.
  intros H. unfold Error_message. now rewrite H.
Qed.

Lemma truthy_js_or (a : value) : truthy a = true -> forall b, js_or a b = a.
Proof. intros H b. unfold js_or. now rewrite H. Qed.

(** A constructor of a specialization, given a message that converts. *)
Lemma new_error_text (cls : ErrorClass) (msg : value) (code : option N)
    (resp : value) (text : string) (log : list event) :
  text_of msg = Some text ->
  new_RenderCADError cls msg code resp log =
    (Return (mkRenderCADError cls text code resp), log).
Proof.
  intros H. unfold new_RenderCADError, bind.
  now rewrite (Error_message_text _ _ _ H).
Qed.

Lemma new_error_fail (cls : ErrorClass) (j : json) (code : option N)
    (resp : value) (log : list event) :
  ToString j = None ->
  new_RenderCADError cls (Some j) code resp log =
    (Throw (Native "Cannot convert object to primitive value"), log).
Proof.
  intros H. unfold new_RenderCADError, bind.
  now rewrite (Error_message_fail _ _ H).
Qed.

Lemma is_false_true (v : value) : is_false v = true -> v = Some (JBool false).
Proof.
  destruct v as [[| [|] | | | |]|]; simpl; congruence.
Qed.

(** ** The constructors of [errors.js] *)

Lemma truthy_or_str (a : value) (s : string) :
  s <> "" -> truthy (js_or a (str s)) = true.
Proof.
  intros Hs. unfold js_or. destruct (truthy a) eqn:Ha; [exact Ha|].
  simpl. destruct (String.eqb_spec s ""); [contradiction | reflexivity].
Qed.

Lemma truthy_or_or_str (a b : value) (s : string) :
  s <> "" -> truthy (js_or a (js_or b (str s))) = true.
Proof.
  intros Hs. unfold js_or at 1. destruct (truthy a) eqn:Ha; [exact Ha|].
  now apply truthy_or_str.
Qed.

(** A specialization built from a truthy message keeps that message. *)
Lemma throw_new_truthy {A : Type} (cls : ErrorClass) (fallback : string)
    (code : option N) (msg resp : value) (text : string) (log : list event) :
  truthy msg = true ->
  text_of msg = Some text ->
  @throw_new A
     (new_RenderCADError cls (js_or msg (Some (JStr fallback))) code resp) log =
    (Throw (Typed (mkRenderCADError cls text code resp)), log).
Proof.
  intros Ht Htext. unfold throw_new, bind.
  rewrite (truthy_js_or _ Ht), (new_error_text _ _ _ _ _ _ Htext).
  reflexivity.
Qed.

(** ... and when the message cannot be converted, the constructor throws
    the conversion failure instead. *)
Lemma throw_new_unconvertible {A : Type} (cls : ErrorClass) (fallback : string)
    (code : option N) (msg resp : value) (log : list event) :
  truthy msg = true ->
  text_of msg = None ->
  @throw_new A
     (new_RenderCADError cls (js_or msg (Some (JStr fallback))) code resp) log =
    (Throw (Native "Cannot convert object to primitive value"), log).
Proof.
  intros Ht Htext. unfold throw_new, bind. rewrite (truthy_js_or _ Ht).
  destruct msg as [j|]; [|discriminate Ht].
  now rewrite (new_error_fail _ _ _ _ _ Htext).
Qed.

(** ** The outcomes of [_request], case by case *)

Section Request.
Variable P : Platform.
Variable this : RenderCADClient.
Variable endpoint : string.
Variable options : RequestInit.
Variable log : list event.

Let url := request_url this endpoint.
Let config := request_config this options.
Let log' := (log ++ [EvFetch url config])%list.

Ltac enter_request H :=
  unfold _request; unfold try_catch, await_fetch, await_json;
  unfold bind, emit, ret;
  change (fetch P _ _) with (fetch P url config);
  rewrite H; cbv beta iota zeta;
  change (log ++ [EvFetch _ _])%list with log'.

Ltac read_body Hnn := rewrite ?(get_not_null _ _ _ Hnn); cbv beta iota zeta.

Lemma request_rejected (msg : string) :
  fetch P url config = inr msg ->
  _request P this endpoint options log = (Throw (Typed (wrapped msg)), log').
Proof.
  intros H. enter_request H. reflexivity.
Qed.

Lemma request_null (resp : Response) :
  fetch P url config = inl resp ->
  parsed_body resp = JNull ->
  _request P this endpoint options log =
    (Throw (Typed (wrapped "Cannot read properties of null (reading 'success')")),
     log').
Proof.
  intros H Hnull. enter_request H. rewrite Hnull. reflexivity.
Qed.

Lemma request_api_credential (resp : Response) (text : string) :
  fetch P url config = inl resp ->
  own (parsed_body resp) success = Some (JBool false) ->
  credential_flag (parsed_body resp) = true ->
  text_of (credential_message (parsed_body resp)) = Some text ->
  _request P this endpoint options log =
    (Throw (Typed {| class := UnauthorizedErrorClass;
                     message := text;
                     statusCode := Some 401%N;
                     response := Some (parsed_body resp) |}), log').
Proof.
  intros H Hs Hflag Htext. enter_request H.
  read_body (own_success_not_null _ _ Hs).
  rewrite Hs. cbn [is_false]. read_body (own_success_not_null _ _ Hs).
  fold (credential_flag (parsed_body resp)). rewrite Hflag.
  read_body (own_success_not_null _ _ Hs).
  fold (credential_message (parsed_body resp)).
  unfold new_UnauthorizedError.
  rewrite (throw_new_truthy _ _ _ _ _ text); auto.
  apply truthy_or_str. discriminate.
Qed.

Lemma request_api_failure (resp : Response) (text : string) :
  fetch P url config = inl resp ->
  own (parsed_body resp) success = Some (JBool false) ->
  credential_flag (parsed_body resp) = false ->
  text_of (failure_message (parsed_body resp)) = Some text ->
  _request P this endpoint options log =
    (Throw (Typed {| class := BadRequestErrorClass;
                     message := text;
                     statusCode := Some 400%N;
                     response := Some (parsed_body resp) |}), log').
Proof.
  intros H Hs Hflag Htext. enter_request H.
  read_body (own_success_not_null _ _ Hs).
  rewrite Hs. cbn [is_false]. read_body (own_success_not_null _ _ Hs).
  fold (credential_flag (parsed_body resp)). rewrite Hflag.
  read_body (own_success_not_null _ _ Hs).
  fold (failure_message (parsed_body resp)).
  unfold new_BadRequestError.
  rewrite (throw_new_truthy _ _ _ _ _ text); auto.
  apply truthy_or_or_str. discriminate.
Qed.

(** A body with [success: false] whose message cannot be converted. *)
Lemma request_api_unconvertible (resp : Response) :
  fetch P url config = inl resp ->
  own (parsed_body resp) success = Some (JBool false) ->
  text_of (if credential_flag (parsed_body resp)
           then credential_message (parsed_body resp)
           else failure_message (parsed_body resp)) = None ->
  _request P this endpoint options log =
    (Throw (Typed (wrapped "Cannot convert object to primitive value")), log').
Proof.
  intros H Hs Htext. enter_request H.
  read_body (own_success_not_null _ _ Hs).
  rewrite Hs. cbn [is_false]. read_body (own_success_not_null _ _ Hs).
  fold (credential_flag (parsed_body resp)).
  destruct (credential_flag (parsed_body resp));
    read_body (own_success_not_null _ _ Hs).
  - fold (credential_message (parsed_body resp)).
    unfold new_UnauthorizedError.
    rewrite throw_new_unconvertible; auto.
    apply truthy_or_str. discriminate.
  - fold (failure_message (parsed_body resp)).
    unfold new_BadRequestError.
    rewrite throw_new_unconvertible; auto.
    apply truthy_or_or_str. discriminate.
Qed.

Lemma request_status (resp : Response) (text : string) :
  fetch P url config = inl resp ->
  parsed_body resp <> JNull ->
  is_false (own (parsed_body resp) success) = false ->
  ok resp = false ->
  text_of (status_message resp) = Some text ->
  _request P this endpoint options log =
    (Throw (Typed {| class := class_of_status (status resp);
                     message := text;
                     statusCode := Some (status resp);
                     response := Some (parsed_body resp) |}), log').
Proof.
  intros H Hnn Hs Hok Htext. enter_request H.
  read_body Hnn. rewrite Hs, Hok. cbn [negb]. read_body Hnn.
  fold (status_message resp).
  assert (Ht : truthy (status_message resp) = true)
    by (apply truthy_or_or_str; discriminate).
  unfold class_of_status, new_BadRequestError, new_UnauthorizedError,
    new_NotFoundError, new_RateLimitError, new_ServerError.
  repeat match goal with
         | |- context [N.eqb (status resp) ?k] =>
             destruct (N.eqb_spec (status resp) k) as [E|_];
             [ rewrite (throw_new_truthy _ _ _ _ _ text) by assumption;
               now rewrite E |]
         end.
  unfold throw_new, bind.
  now rewrite (new_error_text _ _ _ _ _ _ Htext).
Qed.

Lemma request_status_unconvertible (resp : Response) :
  fetch P url config = inl resp ->
  parsed_body resp <> JNull ->
  is_false (own (parsed_body resp) success) = false ->
  ok resp = false ->
  text_of (status_message resp) = None ->
  _request P this endpoint options log =
    (Throw (Typed (wrapped "Cannot convert object to primitive value")), log').
Proof.
  intros H Hnn Hs Hok Htext. enter_request H.
  read_body Hnn. rewrite Hs, Hok. cbn [negb]. read_body Hnn.
  fold (status_message resp).
  assert (Ht : truthy (status_message resp) = true)
    by (apply truthy_or_or_str; discriminate).
  unfold new_BadRequestError, new_UnauthorizedError,
    new_NotFoundError, new_RateLimitError, new_ServerError.
  repeat match goal with
         | |- context [N.eqb (status resp) ?k] =>
             destruct (N.eqb_spec (status resp) k) as [E|_];
             [ now rewrite throw_new_unconvertible by assumption |]
         end.
  destruct (status_message resp) as [j|]; [|discriminate Ht].
  unfold throw_new, bind. now rewrite (new_error_fail _ _ _ _ _ Htext).
Qed.

Lemma request_ok (resp : Response) :
  fetch P url config = inl resp ->
  parsed_body resp <> JNull ->
  is_false (own (parsed_body resp) success) = false ->
  ok resp = true ->
  _request P this endpoint options log = (Return (parsed_body resp), log').
Proof.
  intros H Hnn Hs Hok. enter_request H.
  read_body Hnn. rewrite Hs, Hok. reflexivity.
Qed.

(** Whatever the body says besides [success: false], the error is one of
    the two API-level specializations with its own code, or the wrapped
    conversion failure. *)
Lemma request_api_error (resp : Response) :
  fetch P url config = inl resp ->
  own (parsed_body resp) success = Some (JBool false) ->
  exists e,
    _request P this endpoint options log = (Throw (Typed e), log') /\
    ((class e = UnauthorizedErrorClass /\ statusCode e = Some 401%N /\
      credential_flag (parsed_body resp) = true) \/
     (class e = BadRequestErrorClass /\ statusCode e = Some 400%N /\
      credential_flag (parsed_body resp) = false) \/
     e = wrapped "Cannot convert object to primitive value").
Proof.
  intros H Hs.
  destruct (text_of (if credential_flag (parsed_body resp)
                     then credential_message (parsed_body resp)
                     else failure_message (parsed_body resp))) as [text|] eqn:Ht.
  - destruct (credential_flag (parsed_body resp)) eqn:Hflag.
    + eexists. split; [apply (request_api_credential resp text); assumption|].
      left. auto.
    + eexists. split; [apply (request_api_failure resp text); assumption|].
      right. left. auto.
  - eexists. split; [apply (request_api_unconvertible resp); assumption|].
    right. right. reflexivity.
Qed.

(** Every way a request can end: with an error of the taxonomy, or with the
    parsed body of a response in the 200..299 range. *)
Lemma request_cases :
  (exists e,
     _request P this endpoint options log = (Throw (Typed e), log')) \/
  (exists resp,
     fetch P url config = inl resp /\
     ok resp = true /\
     _request P this endpoint options log = (Return (parsed_body resp), log')).
Proof.
  destruct (fetch P url config) as [resp|msg] eqn:H.
  2:{ left. eexists. apply request_rejected. exact H. }
  assert (Hnull : parsed_body resp = JNull \/ parsed_body resp <> JNull)
    by (destruct (parsed_body resp); auto; right; discriminate).
  destruct Hnull as [Hnull|Hnn].
  { left. eexists. apply (request_null resp); assumption. }
  destruct (is_false (own (parsed_body resp) success)) eqn:Hs.
  { apply is_false_true in Hs.
    destruct (request_api_error resp H Hs) as (e & He & _).
    left. now exists e. }
  destruct (ok resp) eqn:Hok.
  { right. exists resp. repeat split; auto. now apply request_ok. }
  left. destruct (text_of (status_message resp)) as [text|] eqn:Ht.
  - eexists. apply (request_status resp text); assumption.
  - eexists. apply (request_status_unconvertible resp); assumption.
Qed.
End Request.

(** ** Local precondition failures *)

(** C7. On a client that holds no API token ([null], or the empty string)
    each of the three token-requiring operations, [renderImage],
    [checkStatus] and [checkAccount], throws the [UnauthorizedError] with
    the missing-token message, and the log of events stays empty: no
    request was sent, no file was read, and the image was not looked at. *)
Theorem missing_token_fails_locally (P : Platform) (this : RenderCADClient) :
  truthy_string (apiToken this) = false ->
  (forall image,
     call P this (RenderImage image) = (Throw (Typed missing_token_error), [])) /\
  (forall jobId,
     call P this (CheckStatus jobId) = (Throw (Typed missing_token_error), [])) /\
  call P this CheckAccount = (Throw (Typed missing_token_error), []).
Proof.
  intros Htoken. unfold call, renderImage, checkStatus, checkAccount, bind.
  rewrite Htoken. repeat split; intros; reflexivity.
Qed.

Lemma missing_token_witness :
  truthy_string (apiToken client_without_token) = false /\
  call (platform_answering (inr "offline")) client_without_token
       (RenderImage ImageOther) =
    (Throw (Typed missing_token_error), []).
Proof.
  split.
  - reflexivity.
  - apply (proj1 (missing_token_fails_locally
                    (platform_answering (inr "offline"))
                    client_without_token eq_refl)).
Defined.

(** C8. On a client that holds a token, [checkStatus] with an empty job id
    throws the [BadRequestError] "jobId is required" with an empty log of
    events; [pollDeviceCode] with an empty code throws the
    [BadRequestError] "Device code is required" with an empty log. *)
Theorem empty_argument_fails_locally (P : Platform) (this : RenderCADClient) :
  (truthy_string (apiToken this) = true ->
   call P this (CheckStatus "") =
     (Throw (Typed {| class := BadRequestErrorClass;
                      message := "jobId is required";
                      statusCode := Some 400%N;
                      response := None |}), [])) /\
  call P this (PollDeviceCode "") =
    (Throw (Typed {| class := BadRequestErrorClass;
                     message := "Device code is required";
                     statusCode := Some 400%N;
                     response := None |}), []).
Proof.
  unfold call, checkStatus, pollDeviceCode, bind. split.
  - intros Htoken. rewrite Htoken. reflexivity.
  - reflexivity.
Qed.

Lemma empty_argument_witness :
  truthy_string (apiToken client_with_token) = true /\
  no_network_call
    (snd (call (platform_answering (inr "offline")) client_with_token
            (CheckStatus ""))) /\
  no_network_call
    (snd (call (platform_answering (inr "offline")) client_without_token
            (PollDeviceCode ""))).
Proof.
  split; [reflexivity|]. split.
  - rewrite (proj1 (empty_argument_fails_locally
                      (platform_answering (inr "offline"))
                      client_with_token) eq_refl).
    intros url config H. exact H.
  - rewrite (proj2 (empty_argument_fails_locally
                      (platform_answering (inr "offline"))
                      client_without_token)).
    intros url config H. exact H.
Defined.

(** ** The image encoder *)

Lemma prefix_app (p s : string) :
  String.prefix p s = true <-> exists rest, s = p ++ rest.
Proof.
  revert s. induction p as [|a p IH]; intros s.
  - split; [intros _; now exists s | intros _; now destruct s].
  - destruct s as [|b s]; simpl.
    + split; [discriminate | intros [rest H]; discriminate].
    + destruct (ascii_dec a b) as [->|Hab].
      * rewrite IH. split; intros [rest H]; exists rest; congruence.
      * split; [discriminate | intros [rest H]; congruence].
Qed.

Lemma includes_contains (c : ascii) (s : string) :
  includes c s = true <-> contains c s.
Proof.
  unfold contains. induction s as [|d s IH]; simpl.
  - split; [discriminate | intros ([|] & b & H); discriminate].
  - rewrite orb_true_iff, IH. split.
    + intros [H|(a & b & H)].
      * apply Ascii.eqb_eq in H. subst. now exists "", s.
      * subst. now exists (String d a), b.
    + intros ([|d' a] & b & H); simpl in H; injection H as -> ->.
      * left. apply Ascii.eqb_refl.
      * right. now exists a, b.
Qed.

Lemma byte_is_nth (buffer : list byte) (i : nat) (b : byte) :
  byte_is buffer i b = true <-> nth_error buffer i = Some b.
Proof.
  unfold byte_is. destruct (nth_error buffer i) as [x|].
  - split; intros H.
    + now rewrite (Byte.byte_dec_bl _ _ H).
    + injection H as ->. now apply Byte.byte_dec_lb.
  - split; discriminate.
Qed.

Lemma starts_with_2 (a b : byte) (buffer : list byte) :
  starts_with [a; b] buffer <->
  byte_is buffer 0 a && byte_is buffer 1 b = true.
Proof.
  rewrite andb_true_iff, !byte_is_nth. unfold starts_with. split.
  - intros [rest ->]. now split.
  - destruct buffer as [|x [|y rest]]; simpl; intros [H0 H1]; try discriminate.
    injection H0 as ->. injection H1 as ->. now exists rest.
Qed.

Lemma starts_with_4 (a b c d : byte) (buffer : list byte) :
  starts_with [a; b; c; d] buffer <->
  byte_is buffer 0 a && byte_is buffer 1 b
    && byte_is buffer 2 c && byte_is buffer 3 d = true.
Proof.
  rewrite !andb_true_iff, !byte_is_nth. unfold starts_with. split.
  - intros [rest ->]. now repeat split.
  - destruct buffer as [|x [|y [|z [|w rest]]]]; simpl;
      intros [[[H0 H1] H2] H3]; try discriminate.
    injection H0 as ->. injection H1 as ->.
    injection H2 as ->. injection H3 as ->. now exists rest.
Qed.

(** Two signatures that differ in their first byte cannot both match. *)
Lemma first_byte_decides (a b : byte) (buffer : list byte) :
  a <> b -> byte_is buffer 0 a = true -> byte_is buffer 0 b = true -> False.
Proof.
  rewrite !byte_is_nth. intros Hab Ha Hb. congruence.
Qed.

(** C9. The encoder returns a data-URL string as it is; it puts
    [data:image/jpeg;base64,] in front of any string that contains no
    slash; and it turns a buffer into [data:<mime>;base64,<base64 of the
    buffer>], where the MIME type is [image/png] when the buffer starts
    with 0x89 0x50, [image/gif] when it starts with 0x47 0x49, [image/webp]
    when it starts with 0x52 0x49 0x46 0x46, and [image/jpeg] otherwise.
    None of the three touches the outside world. *)
Theorem encoder_detection (P : Platform) (log : list event) :
  (forall rest,
     _encodeImage P (ImageString ("data:image/" ++ rest)) log =
       (Return ("data:image/" ++ rest), log)) /\
  (forall s,
     ~ contains "/" s ->
     _encodeImage P (ImageString s) log =
       (Return ("data:image/jpeg;base64," ++ s), log)) /\
  (forall buffer,
     exists mime,
       _encodeImage P (ImageBuffer buffer) log =
         (Return ("data:" ++ mime ++ ";base64," ++ base64 buffer), log) /\
       (starts_with [x89; x50] buffer -> mime = "image/png") /\
       (starts_with [x47; x49] buffer -> mime = "image/gif") /\
       (starts_with [x52; x49; x46; x46] buffer -> mime = "image/webp") /\
       (~ starts_with [x89; x50] buffer ->
        ~ starts_with [x47; x49] buffer ->
        ~ starts_with [x52; x49; x46; x46] buffer ->
        mime = "image/jpeg")).
Proof.
  split; [|split].
  - intros rest. unfold _encodeImage.
    replace (String.prefix "data:image/" ("data:image/" ++ rest)) with true;
      [reflexivity|].
    symmetry. apply prefix_app. now exists rest.
  - intros s Hs. unfold _encodeImage.
    destruct (String.prefix "data:image/" s) eqn:Hp.
    + apply prefix_app in Hp. destruct Hp as [rest ->].
      elim Hs. now exists "data:image", rest.
    + destruct (includes "/" s) eqn:Hi; [|reflexivity].
      apply includes_contains in Hi. contradiction.
  - intros buffer. unfold _encodeImage, ret.
    eexists. split; [reflexivity|].
    rewrite !starts_with_2, !starts_with_4.
    destruct (byte_is buffer 0 x89 && byte_is buffer 1 x50) eqn:Hpng;
      [|destruct (byte_is buffer 0 x47 && byte_is buffer 1 x49) eqn:Hgif;
        [|destruct (byte_is buffer 0 x52 && byte_is buffer 1 x49
                    && byte_is buffer 2 x46 && byte_is buffer 3 x46) eqn:Hwebp]];
      repeat split; intros; try reflexivity; try discriminate;
      try (exfalso; auto; fail);
      repeat match goal with
             | H : _ && _ = true |- _ => apply andb_true_iff in H; destruct H
             end;
      match goal with
      | H1 : byte_is ?buf 0 ?a = true, H2 : byte_is ?buf 0 ?b = true |- _ =>
          exfalso; apply (first_byte_decides a b buf);
          [discriminate | exact H1 | exact H2]
      end.
Qed.

Lemma encoder_detection_witness :
  (~ contains "/" "aGVsbG8=" /\
   _encodeImage (platform_answering (inr "offline")) (ImageString "aGVsbG8=") [] =
     (Return "data:image/jpeg;base64,aGVsbG8=", [])) /\
  (starts_with [x89; x50] [x89; x50; x4e; x47] /\
   _encodeImage (platform_answering (inr "offline"))
     (ImageBuffer [x89; x50; x4e; x47]) [] =
     (Return "data:image/png;base64,iVBORw==", [])).
Proof.
  assert (Hs : ~ contains "/" "aGVsbG8=")
    by (intros H; apply includes_contains in H; discriminate H).
  assert (Hb : starts_with [x89; x50] [x89; x50; x4e; x47])
    by (exists [x4e; x47]; reflexivity).
  destruct (encoder_detection (platform_answering (inr "offline")) [])
    as (_ & Hraw & Hbuf).
  split; (split; [assumption|]).
  - exact (Hraw "aGVsbG8=" Hs).
  - destruct (Hbuf [x89; x50; x4e; x47]) as (mime & Heq & Hpng & _).
    rewrite Heq, (Hpng Hb). reflexivity.
Defined.

(** ** Transport failures and bodies that are not JSON *)

(** C2, as the code has it.  When [fetch] rejects, the call throws the
    base [RenderCADError] whose message is "Request failed: " followed by
    the message of the rejection, with no status code and no body.  A
    response whose body is not JSON is no failure: the body counts as the
    empty object, which is returned for a status in 200..299 and attached
    to the error selected by the status otherwise, with "HTTP <status>" as
    the message. *)
Theorem transport_failure_and_unparseable_body (P : Platform)
    (this : RenderCADClient) (endpoint : string) (options : RequestInit)
    (log : list event) :
  (forall msg,
     fetch P (request_url this endpoint) (request_config this options) = inr msg ->
     _request P this endpoint options log =
       (Throw (Typed {| class := RenderCADErrorClass;
                        message := "Request failed: " ++ msg;
                        statusCode := None;
                        response := None |}),
        (log ++ [EvFetch (request_url this endpoint)
                         (request_config this options)])%list)) /\
  (forall resp,
     fetch P (request_url this endpoint) (request_config this options) = inl resp ->
     json_body resp = None ->
     _request P this endpoint options log =
       (if ok resp then Return (JObj [])
        else Throw (Typed {| class := class_of_status (status resp);
                             message := "HTTP " ++ decimal (status resp);
                             statusCode := Some (status resp);
                             response := Some (JObj []) |}),
        (log ++ [EvFetch (request_url this endpoint)
                         (request_config this options)])%list)).
Proof.
  split.
  - intros msg H. now apply request_rejected.
  - intros resp H Hbody.
    assert (Hp : parsed_body resp = JObj [])
      by (unfold parsed_body; now rewrite Hbody).
    assert (Hnn : parsed_body resp <> JNull) by (rewrite Hp; discriminate).
    assert (Hs : is_false (own (parsed_body resp) success) = false)
      by now rewrite Hp.
    destruct (ok resp) eqn:Hok.
    + rewrite <- Hp. now apply request_ok.
    + rewrite <- Hp. apply request_status; auto.
      unfold status_message. now rewrite Hp.
Qed.

Lemma transport_failure_witness :
  _request (platform_answering (inr "getaddrinfo ENOTFOUND rendercad.ai"))
    client_with_token "/backend/auth.php?action=check" GET [] =
    (Throw (Typed (wrapped "getaddrinfo ENOTFOUND rendercad.ai")),
     [EvFetch (request_url client_with_token "/backend/auth.php?action=check")
              (request_config client_with_token GET)]) /\
  json_body (mkResponse 502 None) = None /\
  fst (_request (platform_answering (inl (mkResponse 502 None)))
         client_with_token "/backend/auth.php?action=check" GET []) =
    Throw (Typed {| class := RenderCADErrorClass;
                    message := "HTTP 502";
                    statusCode := Some 502%N;
                    response := Some (JObj []) |}).
Proof.
  split; [|split].
  - exact (proj1 (transport_failure_and_unparseable_body
                    (platform_answering (inr "getaddrinfo ENOTFOUND rendercad.ai"))
                    client_with_token "/backend/auth.php?action=check" GET [])
                 _ eq_refl).
  - reflexivity.
  - rewrite (proj2 (transport_failure_and_unparseable_body
                      (platform_answering (inl (mkResponse 502 None)))
                      client_with_token "/backend/auth.php?action=check" GET [])
                   _ eq_refl eq_refl).
    reflexivity.
Defined.

(** C2 as stated fails: a 200 response whose body is not JSON makes
    [checkAccount] return the empty object; no error is thrown. *)
Lemma unparseable_body_is_returned :
  json_body (mkResponse 200 None) = None /\
  fst (call (platform_answering (inl (mkResponse 200 None)))
         client_with_token CheckAccount) = Return (JObj []) /\
  ~ raises (call (platform_answering (inl (mkResponse 200 None)))
              client_with_token CheckAccount) RenderCADErrorClass.
Proof.
  split; [reflexivity|]. split; [reflexivity|].
  intros (e & H & _). discriminate H.
Qed.

(** ** API-level failures: [success: false] in the body *)

(** C3, as the code has it.  For a body with [success: false], whatever
    the HTTP status: when [token_valid] or [authenticated] is [false] the
    call throws an [UnauthorizedError] whose message is the body's
    [message], or "Invalid API token"; otherwise it throws a
    [BadRequestError] whose message is the body's [message], else its
    [error], else "Request failed".  The body is attached.  This holds
    whenever the chosen message can be converted to text. *)
Theorem api_failure_classification (P : Platform) (this : RenderCADClient)
    (endpoint : string) (options : RequestInit) (log : list event)
    (resp : Response) (text : string) :
  fetch P (request_url this endpoint) (request_config this options) = inl resp ->
  own (parsed_body resp) success = Some (JBool false) ->
  text_of (if credential_flag (parsed_body resp)
           then js_or (own (parsed_body resp) message_) (str "Invalid API token")
           else js_or (own (parsed_body resp) message_)
                  (js_or (own (parsed_body resp) error_) (str "Request failed")))
    = Some text ->
  _request P this endpoint options log =
    (Throw (Typed
       (if credential_flag (parsed_body resp)
        then {| class := UnauthorizedErrorClass;
                message := text;
                statusCode := Some 401%N;
                response := Some (parsed_body resp) |}
        else {| class := BadRequestErrorClass;
                message := text;
                statusCode := Some 400%N;
                response := Some (parsed_body resp) |})),
     (log ++ [EvFetch (request_url this endpoint)
                      (request_config this options)])%list).
Proof.
  intros H Hs Htext.
  destruct (credential_flag (parsed_body resp)) eqn:Hflag.
  - now apply request_api_credential.
  - now apply request_api_failure.
Qed.

Lemma api_failure_witness :
  fst (_request
         (platform_answering (inl (mkResponse 200 (Some body_token_invalid))))
         client_with_token "/backend/auth.php?action=check" GET []) =
    Throw (Typed {| class := UnauthorizedErrorClass;
                    message := "Invalid API token";
                    statusCode := Some 401%N;
                    response := Some body_token_invalid |}).
Proof.
  rewrite (api_failure_classification
             (platform_answering (inl (mkResponse 200 (Some body_token_invalid))))
             client_with_token "/backend/auth.php?action=check" GET []
             (mkResponse 200 (Some body_token_invalid)) "Invalid API token"
             eq_refl eq_refl eq_refl).
  reflexivity.
Defined.

(** C3 as stated fails on a body whose [message] is an object that cannot
    be converted to text: the constructor of the error throws, and the call
    ends with the generic error instead of the credential error. *)
Lemma unconvertible_message_is_generic :
  own body_message_object success = Some (JBool false) /\
  own body_message_object token_valid = Some (JBool false) /\
  fst (call (platform_answering (inl (mkResponse 200 (Some body_message_object))))
         client_with_token CheckAccount) =
    Throw (Typed (wrapped "Cannot convert object to primitive value")) /\
  ~ raises (call (platform_answering
                    (inl (mkResponse 200 (Some body_message_object))))
              client_with_token CheckAccount) UnauthorizedErrorClass.
Proof.
  repeat split; try reflexivity.
  intros (e & H & Hc). injection H as <-. discriminate Hc.
Qed.

(** C10, as the code has it.  An error thrown for a body with
    [success: false] whose message converts to text carries the code of
    its class, whatever the HTTP status of the response: it is the
    [UnauthorizedError] with 401 when [token_valid] or [authenticated] is
    [false], and the [BadRequestError] with 400 otherwise. *)
Theorem api_failure_status_code (P : Platform) (this : RenderCADClient)
    (endpoint : string) (options : RequestInit) (log : list event)
    (resp : Response) (text : string) :
  fetch P (request_url this endpoint) (request_config this options) = inl resp ->
  own (parsed_body resp) success = Some (JBool false) ->
  text_of (if credential_flag (parsed_body resp)
           then js_or (own (parsed_body resp) message_) (str "Invalid API token")
           else js_or (own (parsed_body resp) message_)
                  (js_or (own (parsed_body resp) error_) (str "Request failed")))
    = Some text ->
  exists e,
    fst (_request P this endpoint options log) = Throw (Typed e) /\
    class e = (if credential_flag (parsed_body resp)
               then UnauthorizedErrorClass else BadRequestErrorClass) /\
    statusCode e = Some (if credential_flag (parsed_body resp)
                         then 401%N else 400%N).
Proof.
  intros H Hs Htext.
  destruct (credential_flag (parsed_body resp)) eqn:Hflag.
  - eexists.
    rewrite (request_api_credential P this endpoint options log resp text
               H Hs Hflag Htext).
    repeat split.
  - eexists.
    rewrite (request_api_failure P this endpoint options log resp text
               H Hs Hflag Htext).
    repeat split.
Qed.

Lemma api_failure_status_code_witness :
  status (mkResponse 200 (Some body_failure)) = 200%N /\
  exists e,
    fst (_request
           (platform_answering (inl (mkResponse 200 (Some body_failure))))
           client_with_token "/backend/auth.php?action=check" GET []) =
      Throw (Typed e) /\
    class e = BadRequestErrorClass /\ statusCode e = Some 400%N.
Proof.
  split; [reflexivity|].
  exact (api_failure_status_code
           (platform_answering (inl (mkResponse 200 (Some body_failure))))
           client_with_token "/backend/auth.php?action=check" GET []
           (mkResponse 200 (Some body_failure)) "Request failed"
           eq_refl eq_refl eq_refl).
Defined.

(** C10 as stated fails on a body with [success: false] whose [message]
    cannot be converted to text: on a 200 response the error thrown is the
    generic one, and its status code is neither 401 nor 400 but absent. *)
Lemma unconvertible_message_has_no_code :
  own body_message_object success = Some (JBool false) /\
  (exists e,
     fst (call (platform_answering
                  (inl (mkResponse 200 (Some body_message_object))))
            client_with_token CheckAccount) = Throw (Typed e) /\
     statusCode e = None) /\
  ~ (exists e,
       fst (call (platform_answering
                    (inl (mkResponse 200 (Some body_message_object))))
              client_with_token CheckAccount) = Throw (Typed e) /\
       (statusCode e = Some 401%N \/ statusCode e = Some 400%N)).
Proof.
  split; [reflexivity|]. split.
  - eexists. split; reflexivity.
  - intros (e & H & Hcode). injection H as <-.
    destruct Hcode as [Hcode|Hcode]; discriminate Hcode.
Qed.

(** ** Classification by HTTP status *)

Lemma ok_range (resp : Response) :
  ok resp = true <-> (200 <= status resp <= 299)%N.
Proof.
  unfold ok. rewrite andb_true_iff, !N.leb_le. reflexivity.
Qed.

Lemma class_of_status_other (s : N) :
  s <> 400%N -> s <> 401%N -> s <> 404%N -> s <> 429%N -> s <> 500%N ->
  class_of_status s = RenderCADErrorClass.
Proof.
  intros H1 H2 H3 H4 H5. unfold class_of_status.
  repeat match goal with
         | |- context [N.eqb s ?k] =>
             destruct (N.eqb_spec s k); [contradiction|]
         end.
  reflexivity.
Qed.

(** C4, as the code has it.  Take a response whose parsed body is not
    [null] and does not have [success: false].  With a status in 200..299
    the call returns the body as it is.  With any other status it throws
    an error carrying the body, the status and the message (the body's
    [message], else its [error], else "HTTP <status>", when that converts
    to text), of the class selected by the status: 400 [BadRequestError],
    401 [UnauthorizedError], 404 [NotFoundError], 429 [RateLimitError],
    500 [ServerError], anything else the base [RenderCADError]. *)
Theorem status_classification (P : Platform) (this : RenderCADClient)
    (endpoint : string) (options : RequestInit) (log : list event)
    (resp : Response) :
  fetch P (request_url this endpoint) (request_config this options) = inl resp ->
  parsed_body resp <> JNull ->
  is_false (own (parsed_body resp) success) = false ->
  ((200 <= status resp <= 299)%N ->
   _request P this endpoint options log =
     (Return (parsed_body resp),
      (log ++ [EvFetch (request_url this endpoint)
                       (request_config this options)])%list)) /\
  (~ (200 <= status resp <= 299)%N ->
   forall text,
     text_of (js_or (own (parsed_body resp) message_)
                (js_or (own (parsed_body resp) error_)
                   (str ("HTTP " ++ decimal (status resp))))) = Some text ->
     exists cls,
       _request P this endpoint options log =
         (Throw (Typed {| class := cls;
                          message := text;
                          statusCode := Some (status resp);
                          response := Some (parsed_body resp) |}),
          (log ++ [EvFetch (request_url this endpoint)
                           (request_config this options)])%list) /\
       (status resp = 400%N -> cls = BadRequestErrorClass) /\
       (status resp = 401%N -> cls = UnauthorizedErrorClass) /\
       (status resp = 404%N -> cls = NotFoundErrorClass) /\
       (status resp = 429%N -> cls = RateLimitErrorClass) /\
       (status resp = 500%N -> cls = ServerErrorClass) /\
       (status resp <> 400%N -> status resp <> 401%N -> status resp <> 404%N ->
        status resp <> 429%N -> status resp <> 500%N ->
        cls = RenderCADErrorClass)).
Proof.
  intros H Hnn Hs. split.
  - intros Hrange. apply request_ok; auto. now apply ok_range.
  - intros Hrange text Htext.
    assert (Hok : ok resp = false).
    { destruct (ok resp) eqn:E; [|reflexivity].
      apply ok_range in E. contradiction. }
    exists (class_of_status (status resp)). split.
    + now apply request_status.
    + repeat split; try (intros ->; reflexivity).
      apply class_of_status_other.
Qed.

Lemma status_classification_witness :
  fst (_request (platform_answering (inl (mkResponse 429 (Some body_limit))))
         client_with_token "/backend/render.php?action=render" GET []) =
    Throw (Typed {| class := RateLimitErrorClass;
                    message := "Too many renders";
                    statusCode := Some 429%N;
                    response := Some body_limit |}).
Proof.
  assert (Hout : ~ (200 <= 429 <= 299)%N) by (intros [_ H]; now apply H).
  destruct (proj2 (status_classification
                     (platform_answering (inl (mkResponse 429 (Some body_limit))))
                     client_with_token "/backend/render.php?action=render" GET []
                     (mkResponse 429 (Some body_limit))
                     eq_refl ltac:(discriminate) eq_refl)
                  Hout "Too many renders" eq_refl)
    as (cls & Heq & _ & _ & _ & Hcls & _).
  rewrite Heq, (Hcls eq_refl). reflexivity.
Defined.

(** C4 as stated fails on the JSON body [null]: reading [data.success]
    throws, and a 404 ends with the generic error without status, not with
    the [NotFoundError].  It fails as well on a body whose [message] is an
    object that cannot be converted to text. *)
Lemma null_body_is_generic :
  (is_false (own JNull success) = false /\
   ok (mkResponse 404 (Some JNull)) = false /\
   fst (call (platform_answering (inl (mkResponse 404 (Some JNull))))
          client_with_token CheckAccount) =
     Throw (Typed (wrapped "Cannot read properties of null (reading 'success')")) /\
   ~ raises (call (platform_answering (inl (mkResponse 404 (Some JNull))))
               client_with_token CheckAccount) NotFoundErrorClass) /\
  (is_false (own body_odd_message success) = false /\
   fst (call (platform_answering (inl (mkResponse 404 (Some body_odd_message))))
          client_with_token CheckAccount) =
     Throw (Typed (wrapped "Cannot convert object to primitive value")) /\
   ~ raises (call (platform_answering
                     (inl (mkResponse 404 (Some body_odd_message))))
               client_with_token CheckAccount) NotFoundErrorClass).
Proof.
  repeat split; try reflexivity;
    intros (e & H & Hc); injection H as <-; discriminate Hc.
Qed.

(** C5, as the code has it.  With status 429 and a body that is not
    [null]: when the body does not have [success: false] the call throws
    the [RateLimitError], with the body attached, provided its message
    converts to text.  When the body has [success: false] the API-level
    classification comes first: the call throws the [UnauthorizedError]
    (when [token_valid] or [authenticated] is [false]) or the
    [BadRequestError], provided the message of that error converts to
    text, and in no case the [RateLimitError]. *)
Theorem rate_limit_classification (P : Platform) (this : RenderCADClient)
    (endpoint : string) (options : RequestInit) (log : list event)
    (resp : Response) :
  fetch P (request_url this endpoint) (request_config this options) = inl resp ->
  status resp = 429%N ->
  (parsed_body resp <> JNull ->
   is_false (own (parsed_body resp) success) = false ->
   forall text,
     text_of (js_or (own (parsed_body resp) message_)
                (js_or (own (parsed_body resp) error_) (str "HTTP 429")))
       = Some text ->
     _request P this endpoint options log =
       (Throw (Typed {| class := RateLimitErrorClass;
                        message := text;
                        statusCode := Some 429%N;
                        response := Some (parsed_body resp) |}),
        (log ++ [EvFetch (request_url this endpoint)
                         (request_config this options)])%list)) /\
  (own (parsed_body resp) success = Some (JBool false) ->
   (forall text,
      text_of (if credential_flag (parsed_body resp)
               then js_or (own (parsed_body resp) message_)
                      (str "Invalid API token")
               else js_or (own (parsed_body resp) message_)
                      (js_or (own (parsed_body resp) error_)
                         (str "Request failed")))
        = Some text ->
      _request P this endpoint options log =
        (Throw (Typed
           (if credential_flag (parsed_body resp)
            then {| class := UnauthorizedErrorClass;
                    message := text;
                    statusCode := Some 401%N;
                    response := Some (parsed_body resp) |}
            else {| class := BadRequestErrorClass;
                    message := text;
                    statusCode := Some 400%N;
                    response := Some (parsed_body resp) |})),
         (log ++ [EvFetch (request_url this endpoint)
                          (request_config this options)])%list)) /\
   ~ raises (_request P this endpoint options log) RateLimitErrorClass).
Proof.
  intros H Hstatus. split.
  - intros Hnn Hs text Htext.
    assert (Hok : ok resp = false) by (unfold ok; now rewrite Hstatus).
    rewrite (request_status P this endpoint options log resp text H Hnn Hs Hok).
    + now rewrite Hstatus.
    + unfold status_message. now rewrite Hstatus.
  - intros Hs. split.
    + intros text Htext.
      destruct (credential_flag (parsed_body resp)) eqn:Hflag.
      * now apply request_api_credential.
      * now apply request_api_failure.
    + intros (e & He & Hc).
      destruct (request_api_error P this endpoint options log resp H Hs)
        as (e' & He' & Hcases).
      rewrite He' in He. injection He as <-.
      destruct Hcases as [(Hc' & _)|[(Hc' & _)| ->]];
        try (rewrite Hc' in Hc); discriminate.
Qed.

Lemma rate_limit_witness :
  status (mkResponse 429 (Some body_limit)) = 429%N /\
  fst (_request (platform_answering (inl (mkResponse 429 (Some body_limit))))
         client_with_token "/backend/render.php?action=render" GET []) =
    Throw (Typed {| class := RateLimitErrorClass;
                    message := "Too many renders";
                    statusCode := Some 429%N;
                    response := Some body_limit |}) /\
  fst (_request (platform_answering (inl (mkResponse 429 (Some body_token_invalid))))
         client_with_token "/backend/render.php?action=render" GET []) =
    Throw (Typed {| class := UnauthorizedErrorClass;
                    message := "Invalid API token";
                    statusCode := Some 401%N;
                    response := Some body_token_invalid |}) /\
  ~ raises (_request (platform_answering (inl (mkResponse 429 (Some body_failure))))
              client_with_token "/backend/render.php?action=render" GET [])
      RateLimitErrorClass.
Proof.
  split; [reflexivity|]. split; [|split].
  - rewrite (proj1 (rate_limit_classification
                      (platform_answering (inl (mkResponse 429 (Some body_limit))))
                      client_with_token "/backend/render.php?action=render" GET []
                      (mkResponse 429 (Some body_limit)) eq_refl eq_refl)
                   ltac:(discriminate) eq_refl "Too many renders" eq_refl).
    reflexivity.
  - rewrite (proj1 (proj2 (rate_limit_classification
                      (platform_answering
                         (inl (mkResponse 429 (Some body_token_invalid))))
                      client_with_token "/backend/render.php?action=render" GET []
                      (mkResponse 429 (Some body_token_invalid)) eq_refl eq_refl)
                   eq_refl) "Invalid API token" eq_refl).
    reflexivity.
  - exact (proj2 (proj2 (rate_limit_classification
                    (platform_answering (inl (mkResponse 429 (Some body_failure))))
                    client_with_token "/backend/render.php?action=render" GET []
                    (mkResponse 429 (Some body_failure)) eq_refl eq_refl)
                 eq_refl)).
Defined.

(** C5 as stated fails on the body [{"success": false}]: with status 429
    the call throws the [BadRequestError] "Request failed".  It fails as
    well on the body [null] and on a body whose [message] cannot be
    converted to text, which both end with the generic error. *)
Lemma failure_body_precedes_rate_limit :
  (status (mkResponse 429 (Some body_failure)) = 429%N /\
   fst (call (platform_answering (inl (mkResponse 429 (Some body_failure))))
          client_with_token CheckAccount) =
     Throw (Typed {| class := BadRequestErrorClass;
                     message := "Request failed";
                     statusCode := Some 400%N;
                     response := Some body_failure |}) /\
   ~ raises (call (platform_answering (inl (mkResponse 429 (Some body_failure))))
               client_with_token CheckAccount) RateLimitErrorClass) /\
  ~ raises (call (platform_answering (inl (mkResponse 429 (Some JNull))))
              client_with_token CheckAccount) RateLimitErrorClass /\
  ~ raises (call (platform_answering (inl (mkResponse 429 (Some body_odd_message))))
              client_with_token CheckAccount) RateLimitErrorClass.
Proof.
  repeat split; try reflexivity;
    intros (e & H & Hc); injection H as <-; discriminate Hc.
Qed.

(** ** Fallback messages *)

(** C6, as the code has it.  Each specialization of [errors.js] falls back
    to its fixed text when it is constructed with an empty or absent
    message.  [_request] never constructs one that way: for a body that is
    not [null] and has neither [message] nor [error], the API-level
    credential error says "Invalid API token", the API-level bad request
    says "Request failed", and every error selected by the status says
    "HTTP <status>". *)
Theorem fallback_messages :
  (forall (msg resp : value) (log : list event),
     truthy msg = false ->
     new_BadRequestError msg resp log =
       (Return (mkRenderCADError BadRequestErrorClass "Invalid request"
                  (Some 400%N) resp), log) /\
     new_UnauthorizedError msg resp log =
       (Return (mkRenderCADError UnauthorizedErrorClass "Invalid API token"
                  (Some 401%N) resp), log) /\
     new_NotFoundError msg resp log =
       (Return (mkRenderCADError NotFoundErrorClass "Resource not found"
                  (Some 404%N) resp), log) /\
     new_RateLimitError msg resp log =
       (Return (mkRenderCADError RateLimitErrorClass "Monthly limit exceeded"
                  (Some 429%N) resp), log) /\
     new_ServerError msg resp log =
       (Return (mkRenderCADError ServerErrorClass "Server error"
                  (Some 500%N) resp), log)) /\
  (forall (P : Platform) (this : RenderCADClient) (endpoint : string)
          (options : RequestInit) (log : list event) (resp : Response),
     fetch P (request_url this endpoint) (request_config this options) = inl resp ->
     parsed_body resp <> JNull ->
     own (parsed_body resp) message_ = None ->
     own (parsed_body resp) error_ = None ->
     (own (parsed_body resp) success = Some (JBool false) ->
      fst (_request P this endpoint options log) =
        Throw (Typed
          (if credential_flag (parsed_body resp)
           then mkRenderCADError UnauthorizedErrorClass "Invalid API token"
                  (Some 401%N) (Some (parsed_body resp))
           else mkRenderCADError BadRequestErrorClass "Request failed"
                  (Some 400%N) (Some (parsed_body resp))))) /\
     (is_false (own (parsed_body resp) success) = false ->
      ok resp = false ->
      fst (_request P this endpoint options log) =
        Throw (Typed
          (mkRenderCADError (class_of_status (status resp))
             ("HTTP " ++ decimal (status resp))
             (Some (status resp)) (Some (parsed_body resp)))))).
Proof.
  split.
  - intros msg resp log Hm.
    unfold new_BadRequestError, new_UnauthorizedError, new_NotFoundError,
      new_RateLimitError, new_ServerError, js_or.
    rewrite Hm. repeat split; reflexivity.
  - intros P this endpoint options log resp H Hnn Hmsg Herr. split.
    + intros Hs. destruct (credential_flag (parsed_body resp)) eqn:Hflag.
      * rewrite (request_api_credential P this endpoint options log resp
                   "Invalid API token" H Hs Hflag); [reflexivity|].
        unfold credential_message. now rewrite Hmsg.
      * rewrite (request_api_failure P this endpoint options log resp
                   "Request failed" H Hs Hflag); [reflexivity|].
        unfold failure_message. now rewrite Hmsg, Herr.
    + intros Hs Hok.
      rewrite (request_status P this endpoint options log resp
                 ("HTTP " ++ decimal (status resp)) H Hnn Hs Hok).
      * reflexivity.
      * unfold status_message. now rewrite Hmsg, Herr.
Qed.

Lemma fallback_messages_witness :
  truthy (str "") = false /\
  fst (new_NotFoundError (str "") None []) =
    Return (mkRenderCADError NotFoundErrorClass "Resource not found"
              (Some 404%N) None) /\
  own (JObj []) message_ = None /\
  own (JObj []) error_ = None /\
  fst (_request (platform_answering (inl (mkResponse 404 (Some (JObj [])))))
         client_with_token "/backend/auth.php?action=check" GET []) =
    Throw (Typed (mkRenderCADError NotFoundErrorClass "HTTP 404"
                    (Some 404%N) (Some (JObj [])))).
Proof.
  split; [reflexivity|]. split; [|split; [reflexivity|split; [reflexivity|]]].
  - destruct (proj1 fallback_messages (str "") None [] eq_refl)
      as (_ & _ & Hnf & _).
    rewrite Hnf. reflexivity.
  - rewrite (proj2 (proj2 fallback_messages
                      (platform_answering (inl (mkResponse 404 (Some (JObj [])))))
                      client_with_token "/backend/auth.php?action=check" GET []
                      (mkResponse 404 (Some (JObj [])))
                      eq_refl ltac:(discriminate) eq_refl eq_refl)
                   eq_refl eq_refl).
    reflexivity.
Defined.

(** C6 as stated fails on a 400 response with the body [{}]: the
    [BadRequestError] says "HTTP 400", not "Invalid request". *)
Lemma status_error_says_http_status :
  own (JObj []) message_ = None /\
  own (JObj []) error_ = None /\
  fst (call (platform_answering (inl (mkResponse 400 (Some (JObj [])))))
         client_with_token CheckAccount) =
    Throw (Typed (mkRenderCADError BadRequestErrorClass "HTTP 400"
                    (Some 400%N) (Some (JObj [])))) /\
  ~ (exists e,
       fst (call (platform_answering (inl (mkResponse 400 (Some (JObj [])))))
              client_with_token CheckAccount) = Throw (Typed e) /\
       message e = "Invalid request").
Proof.
  repeat split; try reflexivity.
  intros (e & H & Hm). injection H as <-. discriminate Hm.
Qed.

(** ** One outcome per call *)

Lemma request_settles (P : Platform) (this : RenderCADClient)
    (endpoint : string) (options : RequestInit) (log : list event) :
  returns_response_body P (_request P this endpoint options log) \/
  throws_typed (_request P this endpoint options log).
Proof.
  destruct (request_cases P this endpoint options log)
    as [(e & He)|(resp & H & Hok & Hret)].
  - right. exists e. now rewrite He.
  - left. exists (request_url this endpoint), (request_config this options), resp.
    rewrite Hret. simpl. repeat split; auto.
    apply in_or_app. right. now left.
Qed.

Ltac settle_guard :=
  cbn [negb]; unfold ret; cbv beta iota;
  try (right; left; eexists; reflexivity).

(** C1, as the code has it.  Arguments are taken at their documented
    types: any value as image, strings as job id and device code, an
    object with optional string fields as options.  A call of any of the
    five operations then ends in exactly one way: it returns the parsed
    body of a response in the 200..299 range to the request it sent; or it
    throws an error of the taxonomy; or, for [renderImage] on a file path
    whose file cannot be read, it throws the file system's own error
    before any request; or, for [checkStatus] and [pollDeviceCode] on a
    string that holds a lone surrogate, it throws the [URIError] of
    [encodeURIComponent] before any request. *)
Theorem every_call_settles (P : Platform) (this : RenderCADClient)
    (op : operation) :
  returns_response_body P (call P this op) \/
  throws_typed (call P this op) \/
  (exists path msg,
     op = RenderImage (ImageString path) /\
     readFile P path = inr msg /\
     call P this op = (Throw (Native msg), [EvReadFile path])) \/
  (exists s,
     (op = CheckStatus s \/ op = PollDeviceCode s) /\
     has_lone_surrogate s = true /\
     call P this op = (Throw (Native "URI malformed"), [])).
Proof.
  assert (Hreq : forall endpoint options log (Q R : Prop),
            returns_response_body P (_request P this endpoint options log) \/
            throws_typed (_request P this endpoint options log) \/ Q \/ R).
  { intros. destruct (request_settles P this endpoint options log); auto. }
  destruct op as [image|jobId| |options|code];
    unfold call, renderImage, checkStatus, checkAccount, requestDeviceCode,
      pollDeviceCode, bind.
  - destruct (truthy_string (apiToken this)); settle_guard.
    destruct image as [s|buffer|]; unfold _encodeImage.
    + destruct (String.prefix "data:image/" s); settle_guard; [apply Hreq|].
      destruct (includes "/" s); settle_guard; [|apply Hreq].
      unfold bind, emit. settle_guard.
      destruct (readFile P s) as [buffer|msg] eqn:Hread; settle_guard.
      * apply Hreq.
      * right. right. left. exists s, msg. auto.
    + settle_guard. apply Hreq.
    + right. left. eexists. reflexivity.
  - destruct (truthy_string (apiToken this)); settle_guard.
    destruct (truthy_string (Some jobId)); settle_guard.
    unfold encodeURIComponent.
    destruct (has_lone_surrogate jobId) eqn:Hs; settle_guard.
    + right. right. right. exists jobId. auto.
    + apply Hreq.
  - destruct (truthy_string (apiToken this)); settle_guard.
    apply Hreq.
  - apply Hreq.
  - destruct (truthy_string (Some code)); settle_guard.
    unfold encodeURIComponent.
    destruct (has_lone_surrogate code) eqn:Hs; settle_guard.
    + right. right. right. exists code. auto.
    + apply Hreq.
Qed.

(** C1 as stated fails for [renderImage] on a file path: when the file
    cannot be read, the error of the file system reaches the caller as it
    is, outside the taxonomy.  It fails as well for [checkStatus] on a
    job id that holds a lone surrogate, which [encodeURIComponent]
    refuses. *)
Lemma file_error_is_untyped :
  (call (platform_answering (inr "offline")) client_with_token
        (RenderImage (ImageString "./image.jpg")) =
     (Throw (Native "ENOENT: no such file or directory"),
      [EvReadFile "./image.jpg"]) /\
   ~ success_or_typed
       (call (platform_answering (inr "offline")) client_with_token
             (RenderImage (ImageString "./image.jpg")))) /\
  (call (platform_answering (inr "offline")) client_with_token
        (CheckStatus ("render_" ++ lone_surrogate)) =
     (Throw (Native "URI malformed"), []) /\
   ~ success_or_typed
       (call (platform_answering (inr "offline")) client_with_token
             (CheckStatus ("render_" ++ lone_surrogate)))).
Proof.
  split; (split; [reflexivity|]);
    intros [(v & H)|(e & H)]; discriminate H.
Qed.

(** ** Concrete requests *)

(** A status check is a GET without [Content-Type]; the job id is escaped
    in the query. *)
Example checkStatus_request :
  snd (call (platform_answering (inr "offline")) client_with_token
         (CheckStatus "render 1/2")) =
    [EvFetch
       "https://rendercad.ai/backend/render.php?action=status&job_id=render%201%2F2"
       {| method := "GET";
          body := None;
          headers := [("Accept", "*/*");
                      ("User-Agent", "rendercad-ai-node-client/1.0.0");
                      ("Authorization", "Bearer rc_token")] |}].
Proof. reflexivity. Qed.

(** A device-code request without options has no extra query parameter and,
    on a client without token, no [Authorization] header; with options the
    truthy ones are appended in order. *)
Example requestDeviceCode_request :
  snd (call (platform_answering (inr "offline")) client_without_token
         (RequestDeviceCode (mkDeviceCodeOptions None None None))) =
    [EvFetch "https://rendercad.ai/backend/auth.php?action=request_device_code"
       {| method := "POST";
          body := None;
          headers := [("Accept", "*/*");
                      ("User-Agent", "rendercad-ai-node-client/1.0.0")] |}] /\
  (exists config,
     snd (call (platform_answering (inr "offline")) client_without_token
            (RequestDeviceCode
               (mkDeviceCodeOptions (Some "My App") (Some "cli-tool") (Some "")))) =
       [EvFetch
          ("https://rendercad.ai/backend/auth.php?action=request_device_code"
           ++ "&app_name=My+App&app_type=cli-tool")
          config]).
Proof. split; [reflexivity | eexists; reflexivity]. Qed.

(** A file path is read, and its extension selects the MIME type. *)
Example encode_file_path :
  _encodeImage
    {| fetch := fun _ _ => inr "offline";
       readFile := fun _ => inl [x47; x49; x46];
       extname := fun _ => ".PNG" |}
    (ImageString "./shots/plan.PNG") [] =
    (Return "data:image/png;base64,R0lG", [EvReadFile "./shots/plan.PNG"]).
Proof. reflexivity. Qed.

(** * Further properties *)

(** ** What [_request] does in full *)

Section RequestOutcome.
Variable P : Platform.
Variable this : RenderCADClient.
Variable endpoint : string.
Variable options : RequestInit.
Variable log : list event.

Let url := request_url this endpoint.
Let config := request_config this options.
Let log' := (log ++ [EvFetch url config])%list.

(** The five ways a request ends, each with the conditions it ends under. *)
Lemma request_outcome :
  (exists m,
     _request P this endpoint options log = (Throw (Typed (wrapped m)), log')) \/
  (exists resp text cls,
     fetch P url config = inl resp /\
     own (parsed_body resp) success = Some (JBool false) /\
     (cls = UnauthorizedErrorClass \/ cls = BadRequestErrorClass) /\
     _request P this endpoint options log =
       (Throw (Typed (mkRenderCADError cls text (fixed_code cls)
                        (Some (parsed_body resp)))), log')) \/
  (exists resp text,
     fetch P url config = inl resp /\
     parsed_body resp <> JNull /\
     is_false (own (parsed_body resp) success) = false /\
     ok resp = false /\
     _request P this endpoint options log =
       (Throw (Typed (mkRenderCADError (class_of_status (status resp)) text
                        (Some (status resp)) (Some (parsed_body resp)))), log')) \/
  (exists resp,
     fetch P url config = inl resp /\
     parsed_body resp <> JNull /\
     is_false (own (parsed_body resp) success) = false /\
     ok resp = true /\
     _request P this endpoint options log = (Return (parsed_body resp), log')).
Proof.
  destruct (fetch P url config) as [resp|msg] eqn:H.
  2:{ left. eexists. apply request_rejected. exact H. }
  assert (Hnull : parsed_body resp = JNull \/ parsed_body resp <> JNull)
    by (destruct (parsed_body resp); auto; right; discriminate).
  destruct Hnull as [Hnull|Hnn].
  { left. eexists. apply (request_null P this endpoint options log resp); assumption. }
  destruct (is_false (own (parsed_body resp) success)) eqn:Hs.
  { apply is_false_true in Hs.
    destruct (text_of (if credential_flag (parsed_body resp)
                       then credential_message (parsed_body resp)
                       else failure_message (parsed_body resp)))
      as [text|] eqn:Ht.
    - right. left. destruct (credential_flag (parsed_body resp)) eqn:Hflag.
      + exists resp, text, UnauthorizedErrorClass. repeat split; auto.
        now apply request_api_credential.
      + exists resp, text, BadRequestErrorClass. repeat split; auto.
        now apply request_api_failure.
    - left. eexists.
      apply (request_api_unconvertible P this endpoint options log resp);
        assumption. }
  destruct (ok resp) eqn:Hok.
  { right. right. right. exists resp. repeat split; auto. now apply request_ok. }
  destruct (text_of (status_message resp)) as [text|] eqn:Ht.
  - right. right. left. exists resp, text. repeat split; auto.
    now apply request_status.
  - left. eexists.
    apply (request_status_unconvertible P this endpoint options log resp);
      assumption.
Qed.
End RequestOutcome.

(** [_request] extends the log by the one [fetch] of the URL and options it
    built, whatever the outcome. *)
Lemma request_log (P : Platform) (this : RenderCADClient)
    (endpoint : string) (options : RequestInit) (log : list event) :
  snd (_request P this endpoint options log) =
    (log ++ [EvFetch (request_url this endpoint)
                     (request_config this options)])%list.
Proof.
  destruct (request_outcome P this endpoint options log)
    as [(m & H)|[(resp & text & cls & _ & _ & _ & H)
                |[(resp & text & _ & _ & _ & _ & H)
                 |(resp & _ & _ & _ & _ & H)]]];
    now rewrite H.
Qed.

(** ** From the operations to [_request] *)

Lemma encode_outcome (P : Platform) (image : Image) :
  (exists d log0,
     _encodeImage P image [] = (Return d, log0) /\ fetches log0 = []) \/
  (exists e,
     _encodeImage P image [] = (Throw (Typed e), []) /\
     class e = BadRequestErrorClass /\
     statusCode e = Some 400%N /\ response e = None) \/
  (exists path msg,
     image = ImageString path /\
     readFile P path = inr msg /\
     _encodeImage P image [] = (Throw (Native msg), [EvReadFile path])).
Proof.
  destruct image as [s|buffer|]; unfold _encodeImage.
  - destruct (String.prefix "data:image/" s);
      [left; eexists; eexists; split; reflexivity|].
    destruct (includes "/" s); cbn [negb];
      [|left; eexists; eexists; split; reflexivity].
    unfold bind, emit. destruct (readFile P s) as [buffer|msg] eqn:Hread.
    + left. eexists. eexists. split; reflexivity.
    + right. right. exists s, msg. auto.
  - left. eexists. eexists. split; reflexivity.
  - right. left. eexists. repeat split; reflexivity.
Qed.

(** What a call comes down to: a failure before any request, or one run of
    [_request] on a log without requests. *)
Lemma call_shape (P : Platform) (this : RenderCADClient) (op : operation) :
  (exists e,
     call P this op = (Throw (Typed e), []) /\
     (class e = UnauthorizedErrorClass \/ class e = BadRequestErrorClass) /\
     statusCode e = fixed_code (class e) /\
     response e = None) \/
  (exists msg log0,
     call P this op = (Throw (Native msg), log0) /\ fetches log0 = []) \/
  (exists endpoint options log0,
     call P this op = _request P this endpoint options log0 /\
     fetches log0 = [] /\
     String.prefix "/backend/" endpoint = true /\
     ((exists image d, op = RenderImage image /\ options = render_options d) \/
      ((forall image, op <> RenderImage image) /\
       (options = GET \/ options = POST)))).
Proof.
  assert (Hprefix : forall rest, String.prefix "/backend/" ("/backend/" ++ rest) = true)
    by (intros rest; apply prefix_app; now exists rest).
  destruct op as [image|jobId| |options|code];
    unfold call, renderImage, checkStatus, checkAccount, requestDeviceCode,
      pollDeviceCode, bind.
  - destruct (truthy_string (apiToken this)); cbn [negb]; unfold ret;
      cbv beta iota;
      [|left; eexists; repeat split; try reflexivity; now left].
    destruct (encode_outcome P image)
      as [(d & log0 & He & Hlog)|[(e & He & Hc & Hcode & Hresp)
                                  |(path & msg & -> & Hread & He)]];
      rewrite He.
    + right. right.
      exists "/backend/render.php?action=render", (render_options d), log0.
      split; [reflexivity|]. split; [exact Hlog|]. split; [reflexivity|].
      left. now exists image, d.
    + left. exists e. repeat split; auto. now rewrite Hc.
    + right. left. exists msg, [EvReadFile path]. now split.
  - destruct (truthy_string (apiToken this)); cbn [negb]; unfold ret;
      cbv beta iota;
      [|left; eexists; repeat split; try reflexivity; now left].
    destruct (truthy_string (Some jobId)); cbn [negb]; cbv beta iota;
      [|left; eexists; repeat split; try reflexivity; now right].
    unfold encodeURIComponent.
    destruct (has_lone_surrogate jobId); unfold ret, throw; cbv beta iota;
      [right; left; eexists; exists []; now split|].
    right. right. eexists. exists GET, [].
    split; [reflexivity|]. split; [reflexivity|]. split.
    + apply (Hprefix ("render.php?action=status&job_id=" ++ uri_escape jobId)).
    + right. split; [discriminate | now left].
  - destruct (truthy_string (apiToken this)); cbn [negb]; unfold ret;
      cbv beta iota;
      [|left; eexists; repeat split; try reflexivity; now left].
    right. right. eexists. exists GET, [].
    split; [reflexivity|]. split; [reflexivity|]. split.
    + reflexivity.
    + right. split; [discriminate | now left].
  - right. right. eexists. exists POST, [].
    split; [reflexivity|]. split; [reflexivity|]. split.
    + match goal with
      | |- String.prefix _ (_ ++ ?q) = true =>
          apply (Hprefix ("auth.php?action=request_device_code" ++ q))
      end.
    + right. split; [discriminate | now right].
  - destruct (truthy_string (Some code)); cbn [negb]; unfold ret;
      cbv beta iota;
      [|left; eexists; repeat split; try reflexivity; now right].
    unfold encodeURIComponent.
    destruct (has_lone_surrogate code); unfold ret, throw; cbv beta iota;
      [right; left; eexists; exists []; now split|].
    right. right. eexists. exists GET, [].
    split; [reflexivity|]. split; [reflexivity|]. split.
    + apply (Hprefix ("auth.php?action=poll_device_code&code="
                      ++ uri_escape code)).
    + right. split; [discriminate | now left].
Qed.

Lemma fetches_app (a b : list event) :
  fetches (a ++ b) = (fetches a ++ fetches b)%list.
Proof. apply filter_app. Qed.

Lemma fetches_none (log : list event) (url : string) (config : RequestInit) :
  fetches log = [] -> ~ In (EvFetch url config) log.
Proof.
  intros H Hin.
  assert (Hf : In (EvFetch url config) (fetches log))
    by (apply filter_In; now split).
  rewrite H in Hf. exact Hf.
Qed.

(** The log of a run of [_request] that started without requests. *)
Lemma request_fetches (P : Platform) (this : RenderCADClient)
    (endpoint : string) (options : RequestInit) (log0 : list event) :
  fetches log0 = [] ->
  fetches (snd (_request P this endpoint options log0)) =
    [EvFetch (request_url this endpoint) (request_config this options)].
Proof.
  intros H. now rewrite request_log, fetches_app, H.
Qed.

Lemma request_event (P : Platform) (this : RenderCADClient)
    (endpoint : string) (options : RequestInit) (log0 : list event)
    (url : string) (config : RequestInit) :
  fetches log0 = [] ->
  In (EvFetch url config) (snd (_request P this endpoint options log0)) ->
  url = request_url this endpoint /\ config = request_config this options.
Proof.
  intros H Hin. rewrite request_log in Hin.
  apply in_app_or in Hin. destruct Hin as [Hin|[Hin|[]]].
  - now apply fetches_none in Hin.
  - injection Hin as <- <-. now split.
Qed.

(** ** One request per call *)

(** X1. A call of any operation sends at most one request: either none,
    and then the call does not return a result, or exactly one, to the
    base URL of the client followed by a path under [/backend/]. *)
Theorem one_request_per_call (P : Platform) (this : RenderCADClient)
    (op : operation) :
  (fetches (snd (call P this op)) = [] /\
   forall v, fst (call P this op) <> Return v) \/
  (exists endpoint config,
     fetches (snd (call P this op)) =
       [EvFetch (baseUrl this ++ endpoint) config] /\
     String.prefix "/backend/" endpoint = true).
Proof.
  destruct (call_shape P this op)
    as [(e & H & _)|[(msg & log1 & H & Hnat)
                    |(endpoint & options & log0 & H & Hlog & Hpre & _)]].
  - left. rewrite H. split; [reflexivity | discriminate].
  - left. rewrite H. split; [exact Hnat | discriminate].
  - right. exists endpoint, (request_config this options).
    rewrite H. split; [now apply request_fetches | exact Hpre].
Qed.

(** ** The headers of every request *)

Lemma headers_of_request (this : RenderCADClient) (options : RequestInit) :
  headers options = [] ->
  header "Accept" (request_config this options) = Some "*/*" /\
  header "User-Agent" (request_config this options) =
    Some "rendercad-ai-node-client/1.0.0" /\
  header "Authorization" (request_config this options) =
    match apiToken this with
    | Some t => if String.eqb t "" then None else Some ("Bearer " ++ t)
    | None => None
    end /\
  header "Content-Type" (request_config this options) =
    if String.eqb (method options) "GET" || negb (truthy_string (body options))
    then None else Some "application/json".
Proof.
  intros Hh. unfold header, request_config, _getHeaders. cbn [headers].
  rewrite Hh.
  destruct (String.eqb (method options) "GET"
            || negb (truthy_string (body options)));
    destruct (apiToken this) as [t|]; cbn [truthy_string];
    try destruct (String.eqb t ""); repeat split; reflexivity.
Qed.

(** X2. Every request an operation sends carries [Accept: */*] and the
    fixed [User-Agent]; it carries [Authorization: Bearer <token>] when
    the client holds a non-empty token, and no [Authorization] header
    at all otherwise. *)
Theorem identity_headers (P : Platform) (this : RenderCADClient)
    (op : operation) (url : string) (config : RequestInit) :
  In (EvFetch url config) (snd (call P this op)) ->
  header "Accept" config = Some "*/*" /\
  header "User-Agent" config = Some "rendercad-ai-node-client/1.0.0" /\
  header "Authorization" config =
    match apiToken this with
    | Some t => if String.eqb t "" then None else Some ("Bearer " ++ t)
    | None => None
    end.
Proof.
  intros Hin.
  destruct (call_shape P this op)
    as [(e & H & _)|[(msg & log1 & H & Hnat)
                    |(endpoint & options & log0 & H & Hlog & _ & Hopt)]];
    rewrite H in Hin.
  - destruct Hin.
  - cbn [snd] in Hin. now apply fetches_none in Hin.
  - apply request_event in Hin; [|exact Hlog]. destruct Hin as [_ ->].
    assert (Hh : headers options = []).
    { destruct Hopt as [(image & d & _ & ->)|[_ [->| ->]]]; reflexivity. }
    destruct (headers_of_request this options Hh) as (Ha & Hu & Hauth & _).
    auto.
Qed.

Lemma identity_headers_witness :
  header "Authorization"
    (request_config client_with_token GET) = Some "Bearer rc_token" /\
  header "Authorization"
    (request_config client_without_token POST) = None.
Proof.
  split.
  - exact (proj2 (proj2 (identity_headers
             (platform_answering (inr "offline")) client_with_token
             CheckAccount
             (request_url client_with_token "/backend/auth.php?action=check")
             (request_config client_with_token GET)
             (or_introl eq_refl)))).
  - exact (proj2 (proj2 (identity_headers
             (platform_answering (inr "offline")) client_without_token
             (RequestDeviceCode (mkDeviceCodeOptions None None None))
             (request_url client_without_token
                "/backend/auth.php?action=request_device_code")
             (request_config client_without_token POST)
             (or_introl eq_refl)))).
Defined.

(** X3. [Content-Type: application/json] is sent with the one request that
    has a body, the render submission, and with no other: the GET
    requests and the bodyless POST of the device-code request go without
    it. *)
Theorem content_type_only_with_body (P : Platform) (this : RenderCADClient)
    (op : operation) (url : string) (config : RequestInit) :
  In (EvFetch url config) (snd (call P this op)) ->
  ((exists image, op = RenderImage image) ->
   header "Content-Type" config = Some "application/json" /\
   method config = "POST" /\ body config <> None) /\
  ((forall image, op <> RenderImage image) ->
   header "Content-Type" config = None /\ body config = None).
Proof.
  intros Hin.
  destruct (call_shape P this op)
    as [(e & H & _)|[(msg & log1 & H & Hnat)
                    |(endpoint & options & log0 & H & Hlog & _ & Hopt)]];
    rewrite H in Hin.
  - destruct Hin.
  - cbn [snd] in Hin. now apply fetches_none in Hin.
  - apply request_event in Hin; [|exact Hlog]. destruct Hin as [_ ->].
    destruct Hopt as [(image & d & -> & ->)|[Hother [->| ->]]].
    + split.
      * intros _.
        destruct (headers_of_request this (render_options d) eq_refl)
          as (_ & _ & _ & Hct).
        rewrite Hct. repeat split. discriminate.
      * intros Hno. now elim (Hno image).
    + split; [intros [image ->]; now elim (Hother image)|].
      intros _.
      destruct (headers_of_request this GET eq_refl) as (_ & _ & _ & Hct).
      now rewrite Hct.
    + split; [intros [image ->]; now elim (Hother image)|].
      intros _.
      destruct (headers_of_request this POST eq_refl) as (_ & _ & _ & Hct).
      now rewrite Hct.
Qed.

Lemma content_type_witness :
  header "Content-Type"
    (request_config client_with_token (render_options "data:image/png;base64,iVA="))
    = Some "application/json" /\
  header "Content-Type" (request_config client_with_token GET) = None.
Proof.
  split.
  - apply (proj1 (content_type_only_with_body
             (platform_answering (inr "offline")) client_with_token
             (RenderImage (ImageString "data:image/png;base64,iVA="))
             (request_url client_with_token "/backend/render.php?action=render")
             (request_config client_with_token
                (render_options "data:image/png;base64,iVA="))
             (or_introl eq_refl))).
    now exists (ImageString "data:image/png;base64,iVA=").
  - apply (proj2 (content_type_only_with_body
             (platform_answering (inr "offline")) client_with_token
             CheckAccount
             (request_url client_with_token "/backend/auth.php?action=check")
             (request_config client_with_token GET)
             (or_introl eq_refl))).
    discriminate.
Defined.

(** ** What a call hands back *)

(** X4. A body that a call returns is never [null] and never has
    [success: false]: it is the parsed body of a response with a status in
    200..299 to the request the call sent. *)
Theorem returned_body_is_no_failure (P : Platform) (this : RenderCADClient)
    (op : operation) (v : json) :
  fst (call P this op) = Return v ->
  v <> JNull /\
  own v success <> Some (JBool false) /\
  exists url config resp,
    fetches (snd (call P this op)) = [EvFetch url config] /\
    fetch P url config = inl resp /\
    (200 <= status resp <= 299)%N /\
    v = parsed_body resp.
Proof.
  intros Hret.
  destruct (call_shape P this op)
    as [(e & H & _)|[(msg & log1 & H & Hnat)
                    |(endpoint & options & log0 & H & Hlog & _)]];
    rewrite H in Hret |- *; try discriminate Hret.
  destruct (request_outcome P this endpoint options log0)
    as [(m & Hr)|[(resp & text & cls & _ & _ & _ & Hr)
                 |[(resp & text & _ & _ & _ & _ & Hr)
                  |(resp & Hf & Hnn & Hs & Hok & Hr)]]];
    rewrite Hr in Hret; try discriminate Hret.
  injection Hret as <-. split; [exact Hnn|]. split.
  - intros Hfalse. rewrite Hfalse in Hs. discriminate Hs.
  - exists (request_url this endpoint), (request_config this options), resp.
    split; [now apply request_fetches|]. split; [exact Hf|].
    split; [now apply ok_range | reflexivity].
Qed.

Lemma returned_body_witness :
  own body_limit success <> Some (JBool false) /\ body_limit <> JNull.
Proof.
  destruct (returned_body_is_no_failure
              (platform_answering (inl (mkResponse 200 (Some body_limit))))
              client_with_token CheckAccount body_limit eq_refl)
    as (Hnn & Hs & _).
  split; assumption.
Defined.

Lemma class_of_status_code (s : N) :
  (class_of_status s <> RenderCADErrorClass ->
   fixed_code (class_of_status s) = Some s) /\
  (class_of_status s = RenderCADErrorClass ->
   s <> 400%N /\ s <> 401%N /\ s <> 404%N /\ s <> 429%N /\ s <> 500%N).
Proof.
  unfold class_of_status.
  repeat match goal with
         | |- context [N.eqb s ?k] =>
             destruct (N.eqb_spec s k) as [->|?];
             [split; [reflexivity | discriminate]|]
         end.
  split; [intros H; now elim H | auto].
Qed.

(** X5. The class of an error and its status code never disagree.  An
    error of a specialization thrown by any operation carries the code of
    that specialization (400, 401, 404, 429 or 500), also when the HTTP
    status was different.  An error of the base class carries either no
    code, or the HTTP status of the response, which then is none of those
    five and lies outside 200..299. *)
Theorem error_code_matches_class (P : Platform) (this : RenderCADClient)
    (op : operation) (e : RenderCADError) :
  fst (call P this op) = Throw (Typed e) ->
  (class e <> RenderCADErrorClass -> statusCode e = fixed_code (class e)) /\
  (class e = RenderCADErrorClass ->
   forall s, statusCode e = Some s ->
     ~ (200 <= s <= 299)%N /\
     s <> 400%N /\ s <> 401%N /\ s <> 404%N /\ s <> 429%N /\ s <> 500%N).
Proof.
  intros Hthrow.
  destruct (call_shape P this op)
    as [(e' & H & Hc & Hcode & _)|[(msg & log1 & H & Hnat)
                    |(endpoint & options & log0 & H & Hlog & _)]];
    rewrite H in Hthrow; try discriminate Hthrow.
  { injection Hthrow as <-. split; [auto|].
    intros Hbase. destruct Hc as [Hc|Hc]; rewrite Hc in Hbase; discriminate. }
  destruct (request_outcome P this endpoint options log0)
    as [(m & Hr)|[(resp & text & cls & _ & _ & Hcls & Hr)
                 |[(resp & text & _ & _ & _ & Hok & Hr)
                  |(resp & _ & _ & _ & _ & Hr)]]];
    rewrite Hr in Hthrow; try discriminate Hthrow;
    injection Hthrow as <-; cbn [class statusCode].
  - split; [intros Hne; now elim Hne | discriminate].
  - split; [reflexivity|].
    intros Hbase. destruct Hcls as [-> | ->]; discriminate.
  - destruct (class_of_status_code (status resp)) as [Hspec Hbase].
    split.
    + intros Hne. now rewrite (Hspec Hne).
    + intros Hb s Hs. injection Hs as <-. split; [|now apply Hbase].
      intros Hrange. apply ok_range in Hrange. congruence.
Qed.

Lemma error_code_witness :
  statusCode
    (mkRenderCADError BadRequestErrorClass "Request failed" (Some 400%N)
       (Some body_failure)) = fixed_code BadRequestErrorClass.
Proof.
  apply (proj1 (error_code_matches_class
                  (platform_answering (inl (mkResponse 503 (Some body_failure))))
                  client_with_token CheckAccount _ eq_refl)).
  discriminate.
Defined.

(** ** More on the image encoder *)

Lemma mime_of_table (ext : string) :
  exists subtype,
    match table_get ext mimeTypes with
    | Some m => m
    | None => "image/jpeg"
    end = "image/" ++ subtype.
Proof.
  unfold mimeTypes, table_get.
  repeat match goal with
         | |- context [String.eqb ?k ext] =>
             destruct (String.eqb k ext); [eexists; reflexivity|]
         end.
  eexists. reflexivity.
Qed.

(** X6. Whatever the input, a result of the encoder starts with
    [data:image/], so encoding is idempotent: the encoder returns its own
    result unchanged, without reading any file. *)
Theorem encoder_is_idempotent (P : Platform) (image : Image) (d : string)
    (log log0 : list event) :
  _encodeImage P image log = (Return d, log0) ->
  String.prefix "data:image/" d = true /\
  forall P' log', _encodeImage P' (ImageString d) log' = (Return d, log').
Proof.
  intros He.
  assert (Hp : String.prefix "data:image/" d = true).
  { destruct image as [s|buffer|]; unfold _encodeImage in He.
    - destruct (String.prefix "data:image/" s) eqn:Hs.
      + injection He as <- _. exact Hs.
      + destruct (includes "/" s); cbn [negb] in He.
        * unfold bind, emit in He.
          destruct (readFile P s) as [buffer|msg]; [|discriminate He].
          cbv zeta in He. unfold ret in He.
          destruct (mime_of_table (toLowerCase (extname P s))) as [sub Hsub].
          rewrite Hsub in He. injection He as <- _.
          apply prefix_app. eexists. reflexivity.
        * injection He as <- _. apply prefix_app. eexists. reflexivity.
    - injection He as <- _.
      destruct (byte_is buffer 0 x89 && byte_is buffer 1 x50);
        [|destruct (byte_is buffer 0 x47 && byte_is buffer 1 x49);
          [|destruct (byte_is buffer 0 x52 && byte_is buffer 1 x49
                      && byte_is buffer 2 x46 && byte_is buffer 3 x46)]];
        apply prefix_app; eexists; reflexivity.
    - discriminate He. }
  split; [exact Hp|].
  intros P' log'. unfold _encodeImage. now rewrite Hp.
Qed.

Lemma encoder_idempotent_witness :
  _encodeImage (platform_answering (inr "offline"))
    (ImageString "data:image/gif;base64,R0lG") [] =
    (Return "data:image/gif;base64,R0lG", []).
Proof.
  exact (proj2 (encoder_is_idempotent
                  (platform_answering (inr "offline"))
                  (ImageBuffer [x47; x49; x46]) "data:image/gif;base64,R0lG"
                  [] [] eq_refl)
               (platform_answering (inr "offline")) []).
Defined.

(** X7. A string that contains a slash and is no data-URL is a file path:
    the file is read once.  When the read fails, the error of the file
    system is thrown as it is.  When it succeeds, the MIME type is chosen
    by the lower-cased extension alone ([.jpg], [.jpeg], [.png], [.gif],
    [.webp]; anything else counts as JPEG) and the bytes of the file are
    encoded without being inspected. *)
Theorem file_path_encoding (P : Platform) (path : string) (log : list event) :
  contains "/" path ->
  (forall rest, path <> "data:image/" ++ rest) ->
  match readFile P path with
  | inr msg =>
      _encodeImage P (ImageString path) log =
        (Throw (Native msg), (log ++ [EvReadFile path])%list)
  | inl buffer =>
      exists mime,
        _encodeImage P (ImageString path) log =
          (Return ("data:" ++ mime ++ ";base64," ++ base64 buffer),
           (log ++ [EvReadFile path])%list) /\
        (toLowerCase (extname P path) = ".jpg" -> mime = "image/jpeg") /\
        (toLowerCase (extname P path) = ".jpeg" -> mime = "image/jpeg") /\
        (toLowerCase (extname P path) = ".png" -> mime = "image/png") /\
        (toLowerCase (extname P path) = ".gif" -> mime = "image/gif") /\
        (toLowerCase (extname P path) = ".webp" -> mime = "image/webp") /\
        (~ In (toLowerCase (extname P path))
              [".jpg"; ".jpeg"; ".png"; ".gif"; ".webp"] ->
         mime = "image/jpeg")
  end.
Proof.
  intros Hslash Hnot. unfold _encodeImage.
  destruct (String.prefix "data:image/" path) eqn:Hp.
  { apply prefix_app in Hp. destruct Hp as [rest ->]. now elim (Hnot rest). }
  apply includes_contains in Hslash. rewrite Hslash. cbn [negb].
  unfold bind, emit. destruct (readFile P path) as [buffer|msg]; [|reflexivity].
  eexists. split; [reflexivity|].
  repeat split; try (intros ->; reflexivity).
  intros Hnone. unfold mimeTypes, table_get.
  repeat match goal with
         | |- context [String.eqb ?k ?x] =>
             destruct (String.eqb_spec k x) as [E|_];
             [elim Hnone; rewrite <- E; simpl; tauto|]
         end.
  reflexivity.
Qed.

Lemma file_path_witness :
  _encodeImage
    {| fetch := fun _ _ => inr "offline";
       readFile := fun _ => inl [x47; x49; x46];
       extname := fun _ => ".PNG" |}
    (ImageString "./shots/plan.PNG") [] =
    (Return "data:image/png;base64,R0lG", [EvReadFile "./shots/plan.PNG"]).
Proof.
  assert (Hslash : contains "/" "./shots/plan.PNG")
    by (exists ".", "shots/plan.PNG"; reflexivity).
  assert (Hnot : forall rest, "./shots/plan.PNG" <> "data:image/" ++ rest)
    by (intros rest H; discriminate H).
  destruct (file_path_encoding
              {| fetch := fun _ _ => inr "offline";
                 readFile := fun _ => inl [x47; x49; x46];
                 extname := fun _ => ".PNG" |}
              "./shots/plan.PNG" [] Hslash Hnot)
    as (mime & Heq & _ & _ & Hpng & _).
  rewrite Heq, (Hpng eq_refl). reflexivity.
Defined.

(** ** What [renderImage] sends *)

(** X8. On a client with a token, [renderImage] sends the encoded image
    or nothing.  When the encoder fails (a value that is neither string
    nor buffer, or a file that cannot be read) the call fails with the
    encoder's error and no request is sent.  When the encoder returns a
    data-URL, exactly one request is sent: a POST to the render endpoint
    whose body is the JSON object with the data-URL under [image]. *)
Theorem render_sends_encoded_image (P : Platform) (this : RenderCADClient)
    (image : Image) :
  truthy_string (apiToken this) = true ->
  match _encodeImage P image [] with
  | (Return d, _) =>
      fetches (snd (call P this (RenderImage image))) =
        [EvFetch (baseUrl this ++ "/backend/render.php?action=render")
                 (request_config this (render_options d))]
  | (Throw x, log0) =>
      call P this (RenderImage image) = (Throw x, log0) /\ fetches log0 = []
  end.
Proof.
  intros Htoken. unfold call, renderImage, bind. rewrite Htoken.
  cbn [negb]. unfold ret. cbv beta iota.
  destruct (encode_outcome P image)
    as [(d & log0 & He & Hlog)|[(e & He & _)|(path & msg & _ & _ & He)]];
    rewrite He.
  - now apply request_fetches.
  - split; reflexivity.
  - split; reflexivity.
Qed.

Lemma render_witness :
  call (platform_answering (inr "offline")) client_with_token
       (RenderImage ImageOther) =
    (Throw (Typed
       (mkRenderCADError BadRequestErrorClass
          "Invalid image format. Expected Buffer, file path, or base64 string."
          (Some 400%N) None)), []).
Proof.
  exact (proj1 (render_sends_encoded_image
                  (platform_answering (inr "offline")) client_with_token
                  ImageOther eq_refl)).
Defined.

(** ** The URLs of the requests *)

Lemma all_chars_app (p : ascii -> bool) (a b : string) :
  all_chars p (a ++ b) = all_chars p a && all_chars p b.
Proof.
  induction a as [|c a IH]; simpl; [reflexivity|].
  now rewrite IH, andb_assoc.
Qed.

Lemma all_chars_includes (p : ascii -> bool) (s : string) (c : ascii) :
  all_chars p s = true -> includes c s = true -> p c = true.
Proof.
  induction s as [|d s IH]; simpl; [discriminate|].
  rewrite andb_true_iff, orb_true_iff. intros [Hd Hs] [Hc|Hc].
  - apply Ascii.eqb_eq in Hc. now subst.
  - now apply IH.
Qed.

Lemma uri_escape_chars (s : string) :
  all_chars component_char (uri_escape s) = true.
Proof.
  unfold uri_escape. induction s as [|c s IH]; [reflexivity|].
  cbn [map_chars]. rewrite all_chars_app, IH, andb_true_r.
  destruct c as [[] [] [] [] [] [] [] []]; reflexivity.
Qed.

(** No character that structures a URL survives the escaping. *)
Lemma uri_escape_safe (s : string) (c : ascii) :
  includes c "&=#?/ +" = true -> includes c (uri_escape s) = false.
Proof.
  intros Hc. destruct (includes c (uri_escape s)) eqn:Hin;
    [|reflexivity].
  pose proof (all_chars_includes _ _ _ (uri_escape_chars s) Hin) as Hp.
  cbn [includes] in Hc.
  repeat match type of Hc with
         | (_ || _) = true => apply orb_true_iff in Hc; destruct Hc as [Hc|Hc]
         end;
    try discriminate Hc;
    apply Ascii.eqb_eq in Hc; subst c; discriminate Hp.
Qed.

Lemma truthy_nonempty (s : string) : s <> "" -> truthy_string (Some s) = true.
Proof.
  intros H. simpl. destruct (String.eqb_spec s ""); [contradiction|reflexivity].
Qed.

(** X9. The job id of a status check and the code of a device-code poll
    travel as the last query value of the URL, escaped: whatever the
    caller passes, no [&], [=], [#], [?], [/], space or [+] of it reaches
    the URL, so it cannot add or change a query parameter.  An argument
    that holds a lone surrogate cannot be escaped: the call then throws
    the [URIError] and sends nothing. *)
Theorem query_value_is_escaped (P : Platform) (this : RenderCADClient) :
  (forall jobId,
     truthy_string (apiToken this) = true -> jobId <> "" ->
     if has_lone_surrogate jobId
     then call P this (CheckStatus jobId) = (Throw (Native "URI malformed"), [])
     else
       fetches (snd (call P this (CheckStatus jobId))) =
         [EvFetch (baseUrl this ++ "/backend/render.php?action=status&job_id="
                   ++ uri_escape jobId)
                  (request_config this GET)]) /\
  (forall code,
     code <> "" ->
     if has_lone_surrogate code
     then call P this (PollDeviceCode code) = (Throw (Native "URI malformed"), [])
     else
       fetches (snd (call P this (PollDeviceCode code))) =
         [EvFetch (baseUrl this ++ "/backend/auth.php?action=poll_device_code&code="
                   ++ uri_escape code)
                  (request_config this GET)]) /\
  (forall s c,
     includes c "&=#?/ +" = true ->
     includes c (uri_escape s) = false).
Proof.
  split; [|split].
  - intros jobId Htoken Hid. unfold call, checkStatus, bind.
    rewrite Htoken, (truthy_nonempty _ Hid). cbn [negb]. unfold ret.
    cbv beta iota. unfold encodeURIComponent.
    destruct (has_lone_surrogate jobId); [reflexivity|].
    unfold ret. cbv beta iota. now rewrite request_fetches.
  - intros code Hcode. unfold call, pollDeviceCode, bind.
    rewrite (truthy_nonempty _ Hcode). cbn [negb]. unfold ret.
    cbv beta iota. unfold encodeURIComponent.
    destruct (has_lone_surrogate code); [reflexivity|].
    unfold ret. cbv beta iota. now rewrite request_fetches.
  - exact uri_escape_safe.
Qed.

Lemma query_value_witness :
  fetches (snd (call (platform_answering (inr "offline")) client_with_token
                  (CheckStatus "a&admin=1"))) =
    [EvFetch "https://rendercad.ai/backend/render.php?action=status&job_id=a%26admin%3D1"
             (request_config client_with_token GET)] /\
  call (platform_answering (inr "offline")) client_with_token
       (PollDeviceCode lone_surrogate) = (Throw (Native "URI malformed"), []).
Proof.
  split.
  - exact (proj1 (query_value_is_escaped
                    (platform_answering (inr "offline")) client_with_token)
                 "a&admin=1" eq_refl ltac:(discriminate)).
  - exact (proj1 (proj2 (query_value_is_escaped
                    (platform_answering (inr "offline")) client_with_token))
                 lone_surrogate ltac:(discriminate)).
Defined.

Lemma append_empty (s : string) : s ++ "" = s.
Proof. induction s as [|c s IH]; simpl; [reflexivity | now rewrite IH]. Qed.

Lemma append_assoc (a b c : string) : (a ++ b) ++ c = a ++ b ++ c.
Proof. induction a as [|x a IH]; simpl; [reflexivity | now rewrite IH]. Qed.

(** X10. The device-code request goes to
    [/backend/auth.php?action=request_device_code], followed by one
    [&key=value] for each of [app_name], [app_type] and [app_version] that
    is given and not empty, in that order, with the value form-encoded;
    an option that is absent or empty leaves no trace in the URL. *)
Theorem device_code_request_url (P : Platform) (this : RenderCADClient)
    (o : DeviceCodeOptions) :
  fetches (snd (call P this (RequestDeviceCode o))) =
    [EvFetch (baseUrl this ++ "/backend/auth.php?action=request_device_code"
              ++ optional_parameter "app_name" (app_name o)
              ++ optional_parameter "app_type" (app_type o)
              ++ optional_parameter "app_version" (app_version o))
             (request_config this POST)].
Proof.
  unfold call, requestDeviceCode. rewrite request_fetches by reflexivity.
  unfold request_url. do 2 f_equal. f_equal.
  destruct o as [[n|] [t|] [v|]]; unfold optional_parameter, append_if;
    cbn [app_name app_type app_version truthy_string];
    try destruct (String.eqb n ""); try destruct (String.eqb t "");
    try destruct (String.eqb v ""); cbn;
    rewrite ?append_empty, ?append_assoc; cbn;
    rewrite ?append_empty; reflexivity.
Qed.

(** ** Replacing the token *)

(** X11. [setApiToken] takes effect for the calls that follow and keeps
    the base URL: after a non-empty token is set, on a client that had
    none or another one, [checkAccount] sends its request to the same base
    URL with the new token as bearer; after the token is cleared,
    [checkAccount] fails with the missing-token error and sends nothing. *)
Theorem token_set_last_is_used (P : Platform) (this : RenderCADClient) :
  (forall t,
     t <> "" ->
     exists config,
       fetches (snd (call P (setApiToken this (Some t)) CheckAccount)) =
         [EvFetch (baseUrl this ++ "/backend/auth.php?action=check") config] /\
       header "Authorization" config = Some ("Bearer " ++ t)) /\
  call P (setApiToken this None) CheckAccount =
    (Throw (Typed missing_token_error), []).
Proof.
  split; [|reflexivity].
  intros t Ht. exists (request_config (setApiToken this (Some t)) GET).
  split.
  - unfold call, checkAccount, bind. cbn [setApiToken apiToken].
    rewrite (truthy_nonempty _ Ht). cbn [negb]. unfold ret. cbv beta iota.
    now rewrite request_fetches.
  - destruct (headers_of_request (setApiToken this (Some t)) GET eq_refl)
      as (_ & _ & Hauth & _).
    rewrite Hauth. cbn [setApiToken apiToken].
    destruct (String.eqb_spec t ""); [contradiction | reflexivity].
Qed.

Lemma token_set_witness :
  exists config,
    fetches (snd (call (platform_answering (inr "offline"))
                    (setApiToken client_without_token (Some "rc_new"))
                    CheckAccount)) =
      [EvFetch "https://rendercad.ai/backend/auth.php?action=check" config] /\
    header "Authorization" config = Some "Bearer rc_new".
Proof.
  exact (proj1 (token_set_last_is_used
                  (platform_answering (inr "offline")) client_without_token)
               "rc_new" ltac:(discriminate)).
Defined.

(** ** Which message an error carries *)

Lemma js_or_falsy (a b : value) : truthy a = false -> js_or a b = b.
Proof. intros H. unfold js_or. now rewrite H. Qed.

Lemma js_or_text (m : string) (b : value) :
  m <> "" -> js_or (Some (JStr m)) b = Some (JStr m).
Proof.
  intros H. apply truthy_js_or. simpl.
  destruct (String.eqb_spec m ""); [contradiction | reflexivity].
Qed.

(** X12. The message of an error built from a response (body not [null])
    is chosen in this order.  A non-empty string under [message] is the
    message.  Otherwise, when [message] is absent or falsy ([null],
    [false], 0 or the empty string), a non-empty string under [error] is
    the message, except for the API-level credential error, which never
    reads [error].  When neither is usable the message is "Invalid API
    token" for the API-level credential error, "Request failed" for the
    API-level bad request, and "HTTP <status>" for an error selected by
    the status. *)
Theorem message_precedence (P : Platform) (this : RenderCADClient)
    (endpoint : string) (options : RequestInit) (log : list event)
    (resp : Response) :
  fetch P (request_url this endpoint) (request_config this options) = inl resp ->
  parsed_body resp <> JNull ->
  is_false (own (parsed_body resp) success) = true \/ ok resp = false ->
  let credential :=
    is_false (own (parsed_body resp) success)
    && credential_flag (parsed_body resp) in
  let fallback :=
    if is_false (own (parsed_body resp) success)
    then if credential_flag (parsed_body resp)
         then "Invalid API token" else "Request failed"
    else "HTTP " ++ decimal (status resp) in
  forall chosen,
    (exists m, own (parsed_body resp) message_ = Some (JStr m) /\
               m <> "" /\ chosen = m) \/
    (truthy (own (parsed_body resp) message_) = false /\
     credential = false /\
     exists m, own (parsed_body resp) error_ = Some (JStr m) /\
               m <> "" /\ chosen = m) \/
    (truthy (own (parsed_body resp) message_) = false /\
     (credential = true \/ truthy (own (parsed_body resp) error_) = false) /\
     chosen = fallback) ->
    exists e,
      fst (_request P this endpoint options log) = Throw (Typed e) /\
      message e = chosen /\
      response e = Some (parsed_body resp).
Proof.
  intros H Hnn Hfails credential fallback chosen Hchosen.
  assert (Hcred : text_of (credential_message (parsed_body resp)) = Some chosen
                  \/ credential = false).
  { unfold credential_message, credential in *.
    destruct Hchosen as [(m & Hm & Hne & ->)
                        |[(_ & Hc & _)|(Hm & [Hc|Herr] & ->)]].
    - left. now rewrite Hm, js_or_text.
    - now right.
    - left. rewrite (js_or_falsy _ _ Hm). unfold fallback.
      apply andb_true_iff in Hc. destruct Hc as [-> ->]. reflexivity.
    - destruct (is_false (own (parsed_body resp) success)) eqn:Hs;
        [|now right].
      destruct (credential_flag (parsed_body resp)) eqn:Hf; [|now right].
      left. rewrite (js_or_falsy _ _ Hm). reflexivity. }
  assert (Hother :
            credential = false ->
            forall last,
              last = (if is_false (own (parsed_body resp) success)
                      then "Request failed"
                      else "HTTP " ++ decimal (status resp)) ->
              text_of (js_or (own (parsed_body resp) message_)
                         (js_or (own (parsed_body resp) error_) (str last)))
                = Some chosen).
  { intros Hc last ->. unfold credential in *.
    destruct Hchosen as [(m & Hm & Hne & ->)
                        |[(Hm & _ & m & He & Hne & ->)|(Hm & [Hc'|Herr] & ->)]].
    - now rewrite Hm, js_or_text.
    - now rewrite (js_or_falsy _ _ Hm), He, js_or_text.
    - unfold credential in Hc'. congruence.
    - rewrite (js_or_falsy _ _ Hm), (js_or_falsy _ _ Herr). unfold fallback.
      destruct (is_false (own (parsed_body resp) success)); [|reflexivity].
      simpl in Hc. now rewrite Hc. }
  destruct (is_false (own (parsed_body resp) success)) eqn:Hs.
  - apply is_false_true in Hs.
    destruct (credential_flag (parsed_body resp)) eqn:Hflag.
    + destruct Hcred as [Hcred|Hc]; [|discriminate Hc].
      eexists.
      rewrite (request_api_credential P this endpoint options log resp chosen
                 H Hs Hflag Hcred).
      repeat split.
    + eexists.
      rewrite (request_api_failure P this endpoint options log resp chosen
                 H Hs Hflag (Hother eq_refl _ eq_refl)).
      repeat split.
  - destruct Hfails as [Hf|Hok]; [discriminate Hf|].
    eexists.
    rewrite (request_status P this endpoint options log resp chosen
               H Hnn Hs Hok (Hother eq_refl _ eq_refl)).
    repeat split.
Qed.

Lemma message_precedence_witness :
  exists e,
    fst (_request
           (platform_answering (inl (mkResponse 404 (Some body_error_only))))
           client_with_token "/backend/render.php?action=status&job_id=r1"
           GET []) = Throw (Typed e) /\
    message e = "Job not found" /\
    response e = Some body_error_only.
Proof.
  apply (message_precedence
           (platform_answering (inl (mkResponse 404 (Some body_error_only))))
           client_with_token "/backend/render.php?action=status&job_id=r1"
           GET [] (mkResponse 404 (Some body_error_only))
           eq_refl ltac:(discriminate) (or_intror eq_refl) "Job not found").
  right. left. split; [reflexivity|]. split; [reflexivity|].
  exists "Job not found". split; [reflexivity|]. split; [discriminate|reflexivity].
Defined.

(** ** Where the requests go *)

(** X13. A client sends its requests nowhere but under its base URL: to
    [https://rendercad.ai/backend/...] when it was constructed without a
    base URL or with an empty one, and to [<base>/backend/...] when it was
    constructed with a non-empty base URL. *)
Theorem requests_stay_under_base_url (P : Platform) (token : option string)
    (options_baseUrl : option string) (op : operation)
    (url : string) (config : RequestInit) :
  In (EvFetch url config)
     (snd (call P (constructor token options_baseUrl) op)) ->
  exists rest,
    url = match options_baseUrl with
          | Some base => if String.eqb base "" then "https://rendercad.ai"
                         else base
          | None => "https://rendercad.ai"
          end ++ "/backend/" ++ rest.
Proof.
  intros Hin.
  destruct (call_shape P (constructor token options_baseUrl) op)
    as [(e & H & _)|[(msg & log1 & H & Hnat)
                    |(endpoint & options & log0 & H & Hlog & Hpre & _)]];
    rewrite H in Hin.
  - destruct Hin.
  - cbn [snd] in Hin. now apply fetches_none in Hin.
  - apply request_event in Hin; [|exact Hlog]. destruct Hin as [-> _].
    apply prefix_app in Hpre. destruct Hpre as [rest ->].
    exists rest. reflexivity.
Qed.

Lemma requests_stay_witness :
  exists rest,
    "http://localhost:8080/backend/auth.php?action=check" =
    "http://localhost:8080" ++ "/backend/" ++ rest.
Proof.
  exact (requests_stay_under_base_url
           (platform_answering (inr "offline")) (Some "rc_token")
           (Some "http://localhost:8080") CheckAccount
           "http://localhost:8080/backend/auth.php?action=check"
           (request_config
              (constructor (Some "rc_token") (Some "http://localhost:8080")) GET)
           (or_introl eq_refl)).
Defined.

(** ** Telling errors apart by their fields *)

(** X14. The fields of an error of the taxonomy tell where it comes from.
    Without status code it is a wrapped failure of the request: it has no
    body, its message starts with "Request failed: ", and a request was
    sent.  With a status code but without body it is a precondition
    failure: no request was sent.  With a body, exactly one request was
    sent and the body is the parsed body of its response. *)
Theorem error_fields_tell_origin (P : Platform) (this : RenderCADClient)
    (op : operation) (e : RenderCADError) :
  fst (call P this op) = Throw (Typed e) ->
  (statusCode e = None ->
   response e = None /\
   (exists m, message e = "Request failed: " ++ m) /\
   fetches (snd (call P this op)) <> []) /\
  (statusCode e <> None -> response e = None ->
   fetches (snd (call P this op)) = []) /\
  (forall b, response e = Some b ->
   exists url config resp,
     fetches (snd (call P this op)) = [EvFetch url config] /\
     fetch P url config = inl resp /\
     b = parsed_body resp).
Proof.
  intros Hthrow.
  destruct (call_shape P this op)
    as [(e' & H & Hc & Hcode & Hresp)|[(msg & log1 & H & Hnat)
                    |(endpoint & options & log0 & H & Hlog & _)]];
    rewrite H in Hthrow |- *; try discriminate Hthrow.
  { injection Hthrow as <-. cbn [snd]. split; [|split].
    - intros Hnone. rewrite Hcode in Hnone.
      destruct Hc as [Hc|Hc]; rewrite Hc in Hnone; discriminate Hnone.
    - reflexivity.
    - intros b Hb. rewrite Hresp in Hb. discriminate Hb. }
  rewrite (request_fetches P this endpoint options log0 Hlog).
  destruct (request_outcome P this endpoint options log0)
    as [(m & Hr)|[(resp & text & cls & Hf & _ & Hcls & Hr)
                 |[(resp & text & Hf & _ & _ & _ & Hr)
                  |(resp & _ & _ & _ & _ & Hr)]]];
    rewrite Hr in Hthrow; try discriminate Hthrow;
    injection Hthrow as <-; cbn [statusCode response message].
  - split; [|split].
    + intros _. split; [reflexivity|]. split; [now exists m | discriminate].
    + intros Hne. now elim Hne.
    + discriminate.
  - split; [|split].
    + destruct Hcls as [-> | ->]; discriminate.
    + discriminate.
    + intros b Hb. injection Hb as <-.
      now exists (request_url this endpoint), (request_config this options), resp.
  - split; [|split].
    + discriminate.
    + discriminate.
    + intros b Hb. injection Hb as <-.
      now exists (request_url this endpoint), (request_config this options), resp.
Qed.

Lemma error_fields_witness :
  fetches (snd (call (platform_answering (inr "offline")) client_with_token
                  (CheckStatus ""))) = [].
Proof.
  apply (proj1 (proj2 (error_fields_tell_origin
                         (platform_answering (inr "offline")) client_with_token
                         (CheckStatus "")
                         (mkRenderCADError BadRequestErrorClass "jobId is required"
                            (Some 400%N) None)
                         eq_refl))).
  - discriminate.
  - reflexivity.
Defined.
